(** * DietCheck: the dietary safety classification engine of [plugin.py]

    A shallow embedding of the decision logic of [src/plugin.py]
    ([search_food_product] with its inner [meets_nutrient_filters], and
    [analyze_product_safety] with its inner [check_diet_status]) together
    with the properties stated about it.

    Conventions of the embedding.
    - Text is ASCII: a Python [str] is a [string]; [str.lower], [str.strip]
      and the regular-expression classes act on ASCII as Python does.
    - A Python number is the rational it denotes: an [int] is a [Z], a
      [float] held by a record is finite and is the [Q] of its double.
      What [float(...)] computes is a [double]: rounding to binary64, the
      infinities and NaN are modelled there.
    - A Python [dict] is an association list in insertion order, looked up
      from the front.
    - An exception is a value: code that can raise returns a [result].
    - The process-wide [USER_PROFILE] is an explicit [option Profile]
      argument ([None] is Python's [None]).
    - The f-string messages are constructors of [warning], [recommendation]
      and [reason], one per message template of the source. *)

From Stdlib Require Import String Ascii List Bool Arith ZArith QArith Lia.
From Stdlib Require Import DecimalString Qpower.
Import ListNotations.

Local Open Scope bool_scope.
Local Open Scope list_scope.
Local Open Scope string_scope.

(** ** Exceptions as values *)

Inductive exn : Type :=
| ValueError
| TypeError
| OverflowError.

Inductive result (A : Type) : Type :=
| Ok (a : A)
| Raise (e : exn).

Arguments Ok {A} a.
Arguments Raise {A} e.

Definition bind {A B : Type} (m : result A) (f : A -> result B) : result B :=
  match m with
  | Ok a => f a
  | Raise e => Raise e
  end.

Notation "x <- m ;; k" := (bind m (fun x => k))
  (at level 61, m at next level, right associativity).

(** ** Python text primitives *)

Module Py.

(** [c.lower()] for one ASCII character. *)
Definition lower_char (c : ascii) : ascii :=
  let n := nat_of_ascii c in
  if (65 <=? n)%nat && (n <=? 90)%nat then ascii_of_nat (n + 32) else c.

(** [s.lower()]. *)
Fixpoint lower (s : string) : string :=
  match s with
  | EmptyString => EmptyString
  | String c t => String (lower_char c) (lower t)
  end.

(** [sub in s] for two strings. *)
Fixpoint str_in (sub s : string) : bool :=
  prefix sub s ||
  match s with
  | EmptyString => false
  | String _ t => str_in sub t
  end.

(** The whitespace of [str.strip()] and of the pattern class [\s]. *)
Definition is_space (c : ascii) : bool :=
  let n := nat_of_ascii c in
  ((9 <=? n)%nat && (n <=? 13)%nat) || ((28 <=? n)%nat && (n <=? 32)%nat).

Fixpoint lstrip (s : string) : string :=
  match s with
  | EmptyString => EmptyString
  | String c t => if is_space c then lstrip t else s
  end.

Fixpoint rstrip (s : string) : string :=
  match s with
  | EmptyString => EmptyString
  | String c t =>
      match rstrip t with
      | EmptyString => if is_space c then EmptyString else String c EmptyString
      | t' => String c t'
      end
  end.

(** [s.strip()]. *)
Definition strip (s : string) : string := rstrip (lstrip s).

Fixpoint drop (n : nat) (s : string) : string :=
  match n, s with
  | O, _ => s
  | S _, EmptyString => EmptyString
  | S k, String _ t => drop k t
  end.

(** [s.replace(old, new)] for a non-empty [old]: occurrences are replaced
    from the left and do not overlap.  [skip] counts the characters of an
    occurrence that are still to be passed over. *)
Fixpoint replace_from (old new : string) (skip : nat) (s : string) : string :=
  match s with
  | EmptyString => EmptyString
  | String c t =>
      match skip with
      | S k => replace_from old new k t
      | O =>
          if prefix old s
          then new ++ replace_from old new (String.length old - 1) t
          else String c (replace_from old new 0 t)
      end
  end.

Definition replace (old new s : string) : string := replace_from old new 0 s.

(** [any(k in s for k in keywords)]. *)
Definition any_in (keywords : list string) (s : string) : bool :=
  existsb (fun k => str_in k s) keywords.

(** [d.get(key)] on a dict kept as an association list. *)
Fixpoint get {V : Type} (d : list (string * V)) (key : string) : option V :=
  match d with
  | [] => None
  | (k, v) :: d' => if String.eqb k key then Some v else get d' key
  end.

(** [d.get(key, default)]. *)
Definition get_default {V : Type} (d : list (string * V)) (key : string)
  (default : V) : V :=
  match get d key with
  | Some v => v
  | None => default
  end.

(** [record.get(field, default)] for a field that may be absent. *)
Definition field {A : Type} (o : option A) (default : A) : A :=
  match o with
  | Some a => a
  | None => default
  end.

End Py.

(** ** Python values found in a nutrient mapping *)

Inductive pyval : Type :=
| PyNone
| PyBool (b : bool)
| PyInt (z : Z)
| PyFloat (q : Q)
| PyStr (s : string).

Definition Qltb (x y : Q) : bool := negb (Qle_bool y x).

(** The number a value denotes when it is an [int] or a [float]
    ([bool] is a subclass of [int]): [isinstance(value, (int, float))]. *)
Definition number_of (v : pyval) : option Q :=
  match v with
  | PyBool b => Some (if b then 1 else 0)%Q
  | PyInt z => Some (inject_Z z)
  | PyFloat q => Some q
  | PyNone | PyStr _ => None
  end.

(** [value > bound] where [bound] is a number: ordering a [str] or [None]
    against a number raises [TypeError]. *)
Definition gt_number (v : pyval) (bound : Q) : result bool :=
  match number_of v with
  | Some q => Ok (Qltb bound q)
  | None => Raise TypeError
  end.

(** ** Doubles *)

(** What [float(...)] returns: a finite double is the rational it denotes
    (the sign of a zero is not kept), and there are the two infinities and
    NaN. *)
Inductive double : Type :=
| Finite (q : Q)
| Infinity (negative : bool)
| NaN.

(** [x > bound] and [x < bound] against a finite number. *)
Definition double_gt (x : double) (bound : Q) : bool :=
  match x with
  | Finite q => Qltb bound q
  | Infinity negative => negb negative
  | NaN => false
  end.

Definition double_lt (x : double) (bound : Q) : bool :=
  match x with
  | Finite q => Qltb q bound
  | Infinity negative => negative
  | NaN => false
  end.

(** [n / d] rounded to the nearest integer, a tie going to the even one
    ([0 <= n], [0 < d]). *)
Definition round_half_even (n d : Z) : Z :=
  let q := (n / d)%Z in
  match (2 * (n mod d) ?= d)%Z with
  | Lt => q
  | Gt => (q + 1)%Z
  | Eq => if Z.even q then q else (q + 1)%Z
  end.

(** The exponent [e] with [2^e <= n / d < 2^(e+1)] ([0 < n], [0 < d]). *)
Definition floor_log2 (n d : Z) : Z :=
  let e := (Z.log2 n - Z.log2 d)%Z in
  let reached :=
    if (0 <=? e)%Z then (d * 2 ^ e <=? n)%Z else (d <=? n * 2 ^ (- e))%Z in
  if reached then e else (e - 1)%Z.

(** [m * 2^t]. *)
Definition scaled (m t : Z) : Q :=
  if (0 <=? t)%Z then inject_Z (m * 2 ^ t)
  else Qred (m # Z.to_pos (2 ^ (- t))).

(** The double nearest to [n / d] (IEEE 754 binary64, round to nearest,
    ties to even): 53 significant bits, exponents from -1022, below that
    the subnormal spacing [2^-1074]; [None] when the rounded value passes
    the largest double. *)
Definition round_magnitude (n d : Z) : option Q :=
  let t := (Z.max (floor_log2 n d) (-1022) - 52)%Z in
  let m :=
    if (0 <=? t)%Z then round_half_even n (d * 2 ^ t)
    else round_half_even (n * 2 ^ (- t)) d in
  if (0 <=? t)%Z && (2 ^ 1024 <=? m * 2 ^ t)%Z then None
  else Some (scaled m t).

Definition round_double (x : Q) : double :=
  match Qnum x with
  | Z0 => Finite 0
  | Zpos n =>
      match round_magnitude (Zpos n) (Zpos (Qden x)) with
      | Some q => Finite q
      | None => Infinity false
      end
  | Zneg n =>
      match round_magnitude (Zpos n) (Zpos (Qden x)) with
      | Some q => Finite (- q)
      | None => Infinity true
      end
  end.

(** ** [float(...)] and decimal text *)

Definition is_digit (c : ascii) : bool :=
  let n := nat_of_ascii c in (48 <=? n)%nat && (n <=? 57)%nat.

Definition digit_value (c : ascii) : Z := Z.of_nat (nat_of_ascii c - 48).

(** The longest prefix of decimal digits, and what follows it. *)
Fixpoint span_digits (s : string) : string * string :=
  match s with
  | EmptyString => (EmptyString, EmptyString)
  | String c t =>
      if is_digit c
      then let (d, r) := span_digits t in (String c d, r)
      else (EmptyString, s)
  end.

Fixpoint digits_value (acc : Z) (s : string) : Z :=
  match s with
  | EmptyString => acc
  | String c t => digits_value (10 * acc + digit_value c) t
  end.

Definition split_sign (s : string) : bool * string :=
  match s with
  | String "-" t => (true, t)
  | String "+" t => (false, t)
  | _ => (false, s)
  end.

Definition signed (neg : bool) (z : Z) : Z := if neg then (- z)%Z else z.

(** The exponent part of a float literal: empty, or [e]/[E], an optional
    sign and at least one digit, up to the end of the text. *)
Definition parse_exponent (s : string) : option Z :=
  match s with
  | EmptyString => Some 0%Z
  | String c t =>
      if Ascii.eqb c "e" || Ascii.eqb c "E" then
        let (neg, t1) := split_sign t in
        let (ed, rest) := span_digits t1 in
        match ed, rest with
        | String _ _, EmptyString => Some (signed neg (digits_value 0 ed))
        | _, _ => None
        end
      else None
  end.

(** The number a decimal literal denotes: an optional sign, digits with an
    optional fraction (one side of the point may be empty) and an optional
    exponent. *)
Definition parse_decimal (s : string) : option Q :=
  let (neg, s0) := split_sign s in
  let (ip, s1) := span_digits s0 in
  let (fp, s2) :=
    match s1 with
    | String "." t => span_digits t
    | _ => (EmptyString, s1)
    end in
  match ip ++ fp with
  | EmptyString => None
  | String _ _ as ds =>
      match parse_exponent s2 with
      | Some e =>
          Some (Qred (inject_Z (signed neg (digits_value 0 ds))
                      * Qpower (10 # 1) (e - Z.of_nat (String.length fp))))
      | None => None
      end
  end.

(** The whitespace [float] strips from ASCII text: tab to carriage return,
    and the space. *)
Definition is_float_space (c : ascii) : bool :=
  let n := nat_of_ascii c in
  ((9 <=? n)%nat && (n <=? 13)%nat) || (n =? 32)%nat.

Fixpoint float_lstrip (s : string) : string :=
  match s with
  | EmptyString => EmptyString
  | String c t => if is_float_space c then float_lstrip t else s
  end.

Fixpoint float_rstrip (s : string) : string :=
  match s with
  | EmptyString => EmptyString
  | String c t =>
      match float_rstrip t with
      | EmptyString =>
          if is_float_space c then EmptyString else String c EmptyString
      | t' => String c t'
      end
  end.

(** The digit separator: an underscore is dropped when it stands between
    two digits, and makes the text invalid anywhere else.  [prev] is the
    character before [s]. *)
Fixpoint drop_underscores (prev : ascii) (s : string) : option string :=
  match s with
  | EmptyString => if Ascii.eqb prev "_" then None else Some EmptyString
  | String c t =>
      if Ascii.eqb c "_" then
        if is_digit prev then drop_underscores c t else None
      else if Ascii.eqb prev "_" && negb (is_digit c) then None
      else option_map (String c) (drop_underscores c t)
  end.

(** The spellings of the infinities and of NaN, in any letter case and
    with an optional sign. *)
Definition parse_inf_or_nan (s : string) : option double :=
  let (neg, t) := split_sign s in
  let word := Py.lower t in
  if String.eqb word "inf" || String.eqb word "infinity"
  then Some (Infinity neg)
  else if String.eqb word "nan" then Some NaN
  else None.

(** [float(s)] on text, [None] standing for [ValueError]: the text is
    stripped, its digit separators are dropped, and it is a spelling of an
    infinity or of NaN, or a decimal literal, whose value is rounded to the
    nearest double (to an infinity beyond the largest one). *)
Definition parse_float (s : string) : option double :=
  match drop_underscores "000" (float_rstrip (float_lstrip s)) with
  | None => None
  | Some literal =>
      match parse_inf_or_nan literal with
      | Some special => Some special
      | None => option_map round_double (parse_decimal literal)
      end
  end.

(** [float(value)].  An [int] is rounded like a literal, except that one
    beyond the largest double raises [OverflowError]; every integer up to
    [2^53] in magnitude is a double. *)
Definition float (v : pyval) : result double :=
  match v with
  | PyNone => Raise TypeError
  | PyBool b => Ok (Finite (if b then 1 else 0))
  | PyInt z =>
      if (Z.abs z <=? 2 ^ 53)%Z then Ok (Finite (inject_Z z))
      else match round_double (inject_Z z) with
           | Infinity _ => Raise OverflowError
           | rounded => Ok rounded
           end
  | PyFloat q => Ok (Finite q)
  | PyStr s =>
      match parse_float s with
      | Some x => Ok x
      | None => Raise ValueError
      end
  end.

(** ** [repr] of text and [str] of a nutrient mapping *)

Definition quote1 : ascii := "'"%char.
Definition quote2 : ascii := "034"%char.
Definition backslash : ascii := "\"%char.

Definition has_char (c : ascii) (s : string) : bool :=
  Py.str_in (String c EmptyString) s.

Definition hex_digit (n : nat) : ascii :=
  if (n <? 10)%nat then ascii_of_nat (48 + n) else ascii_of_nat (87 + n).

(** One character inside [repr(s)], for the chosen quote. *)
Definition repr_char (quote c : ascii) : string :=
  let n := nat_of_ascii c in
  if Ascii.eqb c quote || Ascii.eqb c backslash
  then String backslash (String c EmptyString)
  else if (n =? 9)%nat then "\t"
  else if (n =? 10)%nat then "\n"
  else if (n =? 13)%nat then "\r"
  else if (n <? 32)%nat || (n =? 127)%nat
  then "\x" ++ String (hex_digit (n / 16)) (String (hex_digit (n mod 16)) EmptyString)
  else String c EmptyString.

Fixpoint repr_chars (quote : ascii) (s : string) : string :=
  match s with
  | EmptyString => EmptyString
  | String c t => repr_char quote c ++ repr_chars quote t
  end.

(** [repr(s)]: single quotes, unless the text has a single quote and no
    double quote. *)
Definition repr_str (s : string) : string :=
  let quote :=
    if has_char quote1 s && negb (has_char quote2 s) then quote2 else quote1 in
  String quote (repr_chars quote s) ++ String quote EmptyString.

Definition repr_int (z : Z) : string := NilZero.string_of_int (Z.to_int z).

Fixpoint join (sep : string) (l : list string) : string :=
  match l with
  | [] => EmptyString
  | [x] => x
  | x :: l' => x ++ sep ++ join sep l'
  end.

(** *** [repr] of a float

    [repr] prints the shortest decimal numeral that [float] reads back as
    the same double, the nearest to it when two of that length do; the
    numeral is written with an exponent when the decimal point falls more
    than 16 digits after, or more than 3 zeros before, its first digit. *)

(** [10^k <= n / d]. *)
Definition reaches_power_of_ten (k n d : Z) : bool :=
  if (0 <=? k)%Z then (d * 10 ^ k <=? n)%Z else (d <=? n * 10 ^ (- k))%Z.

(** The exponent [k] with [10^k <= n / d < 10^(k+1)] ([0 < n], [0 < d]). *)
Definition floor_log10 (n d : Z) : Z :=
  let guess := (floor_log2 n d * 30103 / 100000)%Z in
  if reaches_power_of_ten (guess + 1) n d then (guess + 1)%Z
  else if reaches_power_of_ten guess n d then guess
  else (guess - 1)%Z.

(** [m * 10^t]. *)
Definition decimal (m t : Z) : Q :=
  if (0 <=? t)%Z then inject_Z (m * 10 ^ t)
  else Qred (m # Z.to_pos (10 ^ (- t))).

Definition rounds_to (x : Q) (m t : Z) : bool :=
  match round_double (decimal m t) with
  | Finite q => Qeq_bool q x
  | Infinity _ | NaN => false
  end.

(** The digits [m] and the exponent [t] of the shortest numeral [m * 10^t]
    that reads back as the double [n / d], trying [count] digits and then
    more; [k] is [floor_log10 n d]. *)
Fixpoint shortest_digits (fuel : nat) (count k n d : Z) : Z * Z :=
  match fuel with
  | O => (0%Z, 0%Z)
  | S f =>
      let t := (k - count + 1)%Z in
      let num := if (0 <=? t)%Z then n else (n * 10 ^ (- t))%Z in
      let den := if (0 <=? t)%Z then (d * 10 ^ t)%Z else d in
      let lo := (num / den)%Z in
      let hi := (lo + 1)%Z in
      match rounds_to (n # Z.to_pos d) lo t, rounds_to (n # Z.to_pos d) hi t with
      | true, true =>
          match (2 * (num mod den) ?= den)%Z with
          | Lt => (lo, t)
          | Gt => (hi, t)
          | Eq => if Z.even lo then (lo, t) else (hi, t)
          end
      | true, false => (lo, t)
      | false, true => (hi, t)
      | false, false => shortest_digits f (count + 1) k n d
      end
  end.

(** [s] without its trailing zeros, and how many there were. *)
Fixpoint strip_zeros (s : string) : string * Z :=
  match s with
  | EmptyString => (EmptyString, 0%Z)
  | String c t =>
      match strip_zeros t with
      | (EmptyString, zeros) =>
          if Ascii.eqb c "0" then (EmptyString, (zeros + 1)%Z)
          else (String c EmptyString, zeros)
      | (t', zeros) => (String c t', zeros)
      end
  end.

Fixpoint zeros (n : nat) : string :=
  match n with
  | O => EmptyString
  | S n' => String "0" (zeros n')
  end.

(** The numeral [0.digits * 10^decpt] as [repr] lays it out. *)
Definition layout (digits : string) (decpt : Z) : string :=
  if (decpt <=? -4)%Z || (16 <? decpt)%Z then
    let exponent := (decpt - 1)%Z in
    let shown := repr_int (Z.abs exponent) in
    (match digits with
     | String first EmptyString => String first EmptyString
     | String first rest => String first ("." ++ rest)
     | EmptyString => EmptyString
     end)
    ++ "e" ++ (if (exponent <? 0)%Z then "-" else "+")
    ++ (if (Z.abs exponent <? 10)%Z then "0" else "") ++ shown
  else if (decpt <=? 0)%Z then
    "0." ++ zeros (Z.to_nat (- decpt)) ++ digits
  else
    let point := Z.to_nat decpt in
    if (String.length digits <=? point)%nat then
      digits ++ zeros (point - String.length digits) ++ ".0"
    else
      substring 0 point digits ++ "."
      ++ substring point (String.length digits - point) digits.

(** [repr(x)] for a finite double [x]. *)
Definition repr_double (x : Q) : string :=
  match Qnum x with
  | Z0 => "0.0"
  | _ =>
      let n := Z.abs (Qnum x) in
      let d := Zpos (Qden x) in
      let (m, t) := shortest_digits 17 1 (floor_log10 n d) n d in
      let (digits, dropped) := strip_zeros (repr_int m) in
      (if (Qnum x <? 0)%Z then "-" else "")
      ++ layout digits (t + dropped + Z.of_nat (String.length digits))
  end.

(** ** The regular expressions of [re], by backtracking *)

Inductive regex : Type :=
| Lit (s : string)                (* literal text *)
| StarG (p : ascii -> bool)       (* [p*], greedy *)
| StarL (p : ascii -> bool)       (* [p*?], lazy *)
| PlusG (p : ascii -> bool)       (* [p+], greedy *)
| Opt (r : regex)                 (* [(?:r)?], greedy *)
| Alt (r1 r2 : regex)             (* [r1|r2], the left one first *)
| Seq (r1 r2 : regex)
| Grp (r : regex).                (* the capturing group *)

Section Backtracking.
Context {R : Type}.

(** The longest run of [p] first, then shorter ones. *)
Fixpoint star_greedy (p : ascii -> bool) (s : string)
  (k : string -> option R) : option R :=
  match s with
  | EmptyString => k s
  | String c t =>
      if p c then
        match star_greedy p t k with
        | Some r => Some r
        | None => k s
        end
      else k s
  end.

(** The shortest run of [p] first, then longer ones. *)
Fixpoint star_lazy (p : ascii -> bool) (s : string)
  (k : string -> option R) : option R :=
  match k s with
  | Some r => Some r
  | None =>
      match s with
      | EmptyString => None
      | String c t => if p c then star_lazy p t k else None
      end
  end.

(** [rmatch r s cap k]: match [r] at the start of [s], then continue with
    [k] on the rest of the text and the text captured so far; [None]
    makes the matcher try the next alternative. *)
Fixpoint rmatch (r : regex) (s : string) (cap : option string)
  (k : string -> option string -> option R) : option R :=
  match r with
  | Lit l => if prefix l s then k (Py.drop (String.length l) s) cap else None
  | StarG p => star_greedy p s (fun s' => k s' cap)
  | StarL p => star_lazy p s (fun s' => k s' cap)
  | PlusG p =>
      match s with
      | EmptyString => None
      | String c t => if p c then star_greedy p t (fun s' => k s' cap) else None
      end
  | Opt r1 =>
      match rmatch r1 s cap k with
      | Some x => Some x
      | None => k s cap
      end
  | Alt r1 r2 =>
      match rmatch r1 s cap k with
      | Some x => Some x
      | None => rmatch r2 s cap k
      end
  | Seq r1 r2 => rmatch r1 s cap (fun s' cap' => rmatch r2 s' cap' k)
  | Grp r1 =>
      rmatch r1 s cap
        (fun s' _ =>
           k s' (Some (substring 0 (String.length s - String.length s') s)))
  end.
End Backtracking.

(** The first match of [r] that starts at the beginning of [s]: the text
    after the match and the group's text. *)
Definition match_here (r : regex) (s : string) : option (string * string) :=
  rmatch r s None (fun rest cap => Some (rest, Py.field cap EmptyString)).

(** [re.findall(r, s)] for a pattern with one group that matches no empty
    text: the group of every match, from left to right, the next search
    starting where the last match ended. *)
Fixpoint findall_from (fuel : nat) (r : regex) (s : string) : list string :=
  match fuel with
  | O => []
  | S f =>
      match match_here r s with
      | Some (rest, g) =>
          if (String.length rest <? String.length s)%nat
          then g :: findall_from f r rest
          else g :: match s with
                    | EmptyString => []
                    | String _ t => findall_from f r t
                    end
      | None =>
          match s with
          | EmptyString => []
          | String _ t => findall_from f r t
          end
      end
  end.

Definition findall (r : regex) (s : string) : list string :=
  findall_from (S (String.length s)) r s.

Fixpoint alt_of (words : list string) : regex :=
  match words with
  | [] => Lit EmptyString
  | [w] => Lit w
  | w :: ws => Alt (Lit w) (alt_of ws)
  end.

(** ** Records, profiles and filters *)

(** A product of the catalogue, with the fields the decision logic reads;
    [None] is an absent key. *)
Record Product : Type := {
  product_name : option string;
  generic_name : option string;
  categories : option string;
  labels : option string;
  traces : option string;
  ingredients_text : option string;
  allergens_tags : option (list string);
  labels_tags : option (list string);
  categories_tags : option (list string);
  additives_tags : option (list string);
  ingredients_analysis_tags : option (list string);
  nutriments : option (list (string * pyval))
}.

(** The profile document kept in [USER_PROFILE]. *)
Record Profile : Type := {
  profile_name : option string;
  allergies : option (list string);
  intolerances : option (list string);
  medical_conditions : option (list string);
  dietary_preferences : option (list (string * bool));
  avoid_additives : option (list string);
  nutrient_limits : option (list (string * Q))
}.

(** The [filters] dict that [search_food_product] builds from its
    parameters. *)
Record Filters : Type := {
  low_fat : bool;
  low_fiber : bool;
  low_sugar : bool;
  low_salt : bool;
  no_nuts : bool;
  max_calories : option Q;
  min_calories : option Q;
  max_fat : option Q;
  max_fiber : option Q;
  min_fiber : option Q;
  max_sugar : option Q;
  max_salt : option Q;
  min_protein : option Q;
  max_protein : option Q
}.

Inductive warning : Type :=
| AllergyWarning (allergy : string)
| IntoleranceWarning (intolerance : string)
| HighNutrient (nutrient : string) (value : pyval) (limit : Q)
| StatusUnknownExplicit (diet_type : string)
| NotDiet (diet_type indicator : string)
| StatusUnknownInsufficient (diet_type : string) (filtered_out : bool)
| AvoidedAdditive (additive : string).

Inductive recommendation : Type :=
| LowSugarAlternative
| LowSaltAlternative.

(** What [analyze_product_safety] returns, and its three locals while it
    runs. *)
Record Verdict : Type := {
  is_safe : bool;
  warnings : list warning;
  recommendations : list recommendation
}.

(** The second component of what [meets_nutrient_filters] returns. *)
Inductive reason : Type :=
| ContainsNuts
| OverLimit (name : string) (value : pyval) (limit : Q)
| ProteinBelowMinimum (value : double) (limit : Q)
| ProteinAboveMaximum (value : double) (limit : Q)
| CaloriesBelowMinimum (value : pyval) (limit : Q)
| FiberBelowMinimum (value : pyval) (limit : Q).

(** [x if x is not None else (bound if low else None)]. *)
Definition limit_or_low (explicit : option Q) (low : bool) (bound : Q)
  : option Q :=
  match explicit with
  | Some l => Some l
  | None => if low then Some bound else None
  end.

Definition fat_limit (filters : Filters) : option Q :=
  limit_or_low (max_fat filters) (low_fat filters) 3.
Definition fiber_limit (filters : Filters) : option Q :=
  limit_or_low (max_fiber filters) (low_fiber filters) 3.
Definition sugar_limit (filters : Filters) : option Q :=
  limit_or_low (max_sugar filters) (low_sugar filters) 5.
Definition salt_limit (filters : Filters) : option Q :=
  limit_or_low (max_salt filters) (low_salt filters) (3 # 10).
Definition calorie_limit (filters : Filters) : option Q := max_calories filters.
Definition min_calorie_limit (filters : Filters) : option Q := min_calories filters.
Definition min_fiber_limit (filters : Filters) : option Q := min_fiber filters.
Definition min_protein_limit (filters : Filters) : option Q := min_protein filters.
Definition max_protein_limit (filters : Filters) : option Q := max_protein filters.

Definition is_some {A : Type} (o : option A) : bool :=
  match o with
  | Some _ => true
  | None => false
  end.

Definition has_nutrient_filters (filters : Filters) : bool :=
  low_fat filters || low_fiber filters || low_sugar filters
  || low_salt filters || no_nuts filters
  || is_some (calorie_limit filters) || is_some (min_calorie_limit filters)
  || is_some (fat_limit filters) || is_some (fiber_limit filters)
  || is_some (min_fiber_limit filters) || is_some (sugar_limit filters)
  || is_some (salt_limit filters) || is_some (min_protein_limit filters)
  || is_some (max_protein_limit filters).

(** ** Nut detection *)

Definition nuts_keywords : list string :=
  [ "nuts"; "nut"; "almond"; "walnut"; "peanut"; "cashew";
    "pistachio"; "hazelnut"; "pecan"; "macadamia"; "brazil nut";
    "pine nut"; "chestnut"; "beechnut"; "hickory nut";
    "may contain nuts"; "may contain nut"; "tree nuts" ].

(** The class of the pattern: any character but a brace or a quote. *)
Definition not_brace_quote (c : ascii) : bool :=
  negb (Ascii.eqb c "{" || Ascii.eqb c "}"
        || Ascii.eqb c quote1 || Ascii.eqb c quote2).

(** The pattern of [nuts_percentage_matches]:
    a run of the class, a nut word, a lazy run of the class, the group
    [(\d+(?:\.\d+)?)], [\s*] and a percent sign.  The text it is applied to
    is already lower-case, so [re.IGNORECASE] changes nothing. *)
Definition nuts_percentage_pattern : regex :=
  Seq (StarG not_brace_quote)
 (Seq (alt_of [ "nuts"; "nut"; "walnut"; "almond"; "peanut"; "cashew";
                "pistachio"; "hazelnut"; "pecan"; "macadamia" ])
 (Seq (StarL not_brace_quote)
 (Seq (Grp (Seq (PlusG is_digit) (Opt (Seq (Lit ".") (PlusG is_digit)))))
 (Seq (StarG Py.is_space)
      (Lit "%"))))).

(** [float(percentage_str) > 0], a [ValueError] skipping the entry. *)
Definition percentage_positive (percentage_str : string) : bool :=
  match parse_float percentage_str with
  | Some percentage => double_gt percentage 0
  | None => false
  end.

(** The value of [has_nut_in_nutriments] from the serialised, lower-cased
    nutrient mapping. *)
Definition nut_in_nutriments_str (nutriments_str : string) : bool :=
  if Py.any_in nuts_keywords nutriments_str then
    match findall nuts_percentage_pattern nutriments_str with
    | [] =>
        Py.any_in [ "may contain nuts"; "may contain nut";
                    "contains nuts"; "contains nut" ] nutriments_str
    | nuts_percentage_matches =>
        existsb percentage_positive nuts_percentage_matches
    end
  else false.

(** One entry of [additional_fields_to_check]. *)
Inductive checked_field : Type :=
| TextField (s : string)
| ListField (l : list string).

Definition field_has_nut (f : checked_field) : bool :=
  match f with
  | TextField s => Py.any_in nuts_keywords s
  | ListField l => existsb (fun item => Py.any_in nuts_keywords (Py.lower item)) l
  end.

Section Engine.

(** The printer of floats is a parameter of the engine: what follows holds
    of any printer, and of [repr_double], the one of Python, in
    particular. *)
Variable repr_float : Q -> string.

Definition repr (v : pyval) : string :=
  match v with
  | PyNone => "None"
  | PyBool true => "True"
  | PyBool false => "False"
  | PyInt z => repr_int z
  | PyFloat q => repr_float q
  | PyStr s => repr_str s
  end.

(** [str(d)] of a dict. *)
Definition str_dict (d : list (string * pyval)) : string :=
  "{" ++ join ", " (map (fun kv => repr_str (fst kv) ++ ": " ++ repr (snd kv)) d)
      ++ "}".

Definition nutriments_str (product : Product) : string :=
  Py.lower (str_dict (Py.field (nutriments product) [])).

Definition has_nut_allergen (product : Product) : bool :=
  existsb (fun allergen => Py.str_in "nut" (Py.lower allergen))
          (Py.field (allergens_tags product) []).

Definition has_nut_ingredient (product : Product) : bool :=
  Py.any_in nuts_keywords (Py.lower (Py.field (ingredients_text product) "")).

Definition additional_fields_to_check (product : Product)
  : list checked_field :=
  [ TextField (Py.lower (Py.field (product_name product) ""));
    TextField (Py.lower (Py.field (generic_name product) ""));
    TextField (Py.lower (Py.field (categories product) ""));
    TextField (Py.lower (Py.field (labels product) ""));
    TextField (Py.lower (Py.field (traces product) ""));
    ListField (Py.field (ingredients_analysis_tags product) []);
    ListField (Py.field (categories_tags product) []);
    ListField (Py.field (labels_tags product) []) ].

Definition has_nut_in_additional_fields (product : Product) : bool :=
  existsb field_has_nut (additional_fields_to_check product).

Definition has_nut_in_nutriments (product : Product) : bool :=
  nut_in_nutriments_str (nutriments_str product).

(** The disjunction both nut checks end with (the [no_nuts] filter and
    the nuts allergy run the same text). *)
Definition contains_nuts (product : Product) : bool :=
  has_nut_allergen product || has_nut_ingredient product
  || has_nut_in_nutriments product || has_nut_in_additional_fields product.

(** ** [meets_nutrient_filters] *)

(** [nutriments.get(key1, nutriments.get(key2, None))]. *)
Definition nutrient (nutriments : list (string * pyval)) (key1 key2 : string)
  : pyval :=
  Py.get_default nutriments key1 (Py.get_default nutriments key2 PyNone).

(** The loop over [limits]: the first bound that is exceeded. *)
Fixpoint check_limits (nutriments : list (string * pyval))
  (limits : list (option Q * string * string * string))
  : result (option reason) :=
  match limits with
  | [] => Ok None
  | (None, _, _, _) :: rest => check_limits nutriments rest
  | (Some limit, key1, key2, name) :: rest =>
      match nutrient nutriments key1 key2 with
      | PyNone => check_limits nutriments rest
      | value =>
          v <- float value ;;
          if double_gt v limit then Ok (Some (OverLimit name value limit))
          else check_limits nutriments rest
      end
  end.

Definition limits (filters : Filters)
  : list (option Q * string * string * string) :=
  [ (calorie_limit filters, "energy-kcal_100g", "energy-kcal", "Calories");
    (fat_limit filters, "fat_100g", "fat", "Fat");
    (fiber_limit filters, "fiber_100g", "fiber", "Fiber");
    (sugar_limit filters, "sugars_100g", "sugars", "Sugar");
    (salt_limit filters, "salt_100g", "salt", "Salt") ].

(** The protein bounds; [float(protein_value)] runs whenever the value is
    present, whether or not a protein bound is set. *)
Definition check_protein (filters : Filters)
  (nutriments : list (string * pyval)) : result (option reason) :=
  match nutrient nutriments "proteins_100g" "proteins" with
  | PyNone => Ok None
  | value =>
      protein_value <- float value ;;
      match min_protein_limit filters, max_protein_limit filters with
      | Some lo, hi =>
          if double_lt protein_value lo
          then Ok (Some (ProteinBelowMinimum protein_value lo))
          else match hi with
               | Some h =>
                   if double_gt protein_value h
                   then Ok (Some (ProteinAboveMaximum protein_value h))
                   else Ok None
               | None => Ok None
               end
      | None, Some h =>
          if double_gt protein_value h
          then Ok (Some (ProteinAboveMaximum protein_value h))
          else Ok None
      | None, None => Ok None
      end
  end.

(** A minimum bound on the value under [key1], else [key2]. *)
Definition check_minimum (bound : option Q)
  (nutriments : list (string * pyval)) (key1 key2 : string)
  (why : pyval -> Q -> reason) : result (option reason) :=
  match bound with
  | None => Ok None
  | Some lo =>
      match nutrient nutriments key1 key2 with
      | PyNone => Ok None
      | value =>
          v <- float value ;;
          if double_lt v lo then Ok (Some (why value lo)) else Ok None
      end
  end.

(** Run the checks in order and stop at the first that gives a reason. *)
Fixpoint first_reason (checks : list (result (option reason)))
  : result (option reason) :=
  match checks with
  | [] => Ok None
  | c :: rest =>
      r <- c ;;
      match r with
      | Some why => Ok (Some why)
      | None => first_reason rest
      end
  end.

Definition meets_nutrient_filters (filters : Filters) (product : Product)
  : result (bool * option reason) :=
  let nutriments := Py.field (nutriments product) [] in
  if no_nuts filters && contains_nuts product
  then Ok (false, Some ContainsNuts)
  else
    r <- first_reason
           [ check_limits nutriments (limits filters);
             check_protein filters nutriments;
             check_minimum (min_calorie_limit filters) nutriments
               "energy-kcal_100g" "energy-kcal" CaloriesBelowMinimum;
             check_minimum (min_fiber_limit filters) nutriments
               "fiber_100g" "fiber" FiberBelowMinimum ] ;;
    match r with
    | Some why => Ok (false, Some why)
    | None => Ok (true, None)
    end.

(** ** [analyze_product_safety] *)

Definition warn (w : warning) (st : Verdict) : Verdict :=
  {| is_safe := is_safe st;
     warnings := (warnings st ++ [w])%list;
     recommendations := recommendations st |}.

Definition unsafe (st : Verdict) : Verdict :=
  {| is_safe := false;
     warnings := warnings st;
     recommendations := recommendations st |}.

Definition unsafe_if (strict_mode : bool) (st : Verdict) : Verdict :=
  if strict_mode then unsafe st else st.

Definition recommend (r : recommendation) (st : Verdict) : Verdict :=
  {| is_safe := is_safe st;
     warnings := warnings st;
     recommendations := (recommendations st ++ [r])%list |}.

(** The text every check reads: [ingredients_text], lower-cased. *)
Definition ingredients_lower (product_data : Product) : string :=
  Py.lower (Py.field (ingredients_text product_data) "").

(** The body of [for allergy in allergies]. *)
Definition check_allergy (product_data : Product) (st : Verdict)
  (allergy : string) : Verdict :=
  let allergy_lower := Py.lower allergy in
  if existsb (String.eqb allergy_lower) [ "nuts"; "nut"; "tree nuts" ] then
    if contains_nuts product_data
    then unsafe (warn (AllergyWarning allergy) st)
    else st
  else
    if existsb (fun allergen => Py.str_in allergy_lower (Py.lower allergen))
               (Py.field (allergens_tags product_data) [])
       || Py.str_in allergy_lower (ingredients_lower product_data)
    then unsafe (warn (AllergyWarning allergy) st)
    else st.

(** The body of [for intolerance in intolerances]. *)
Definition check_intolerance (product_data : Product) (strict_mode : bool)
  (st : Verdict) (intolerance : string) : Verdict :=
  if Py.str_in (Py.lower intolerance) (ingredients_lower product_data)
  then unsafe_if strict_mode (warn (IntoleranceWarning intolerance) st)
  else st.

(** [nutriments.get(nutrient, nutriments.get(nutrient.replace("_100g", ""), 0))]. *)
Definition limited_value (nutriments : list (string * pyval)) (key : string)
  : pyval :=
  Py.get_default nutriments key
    (Py.get_default nutriments (Py.replace "_100g" "" key) (PyInt 0)).

(** The body of [for nutrient, limit in nutrient_limits.items()]. *)
Definition check_nutrient_limit (product_data : Product) (strict_mode : bool)
  (st : Verdict) (entry : string * Q) : Verdict :=
  let (key, limit) := entry in
  let value := limited_value (Py.field (nutriments product_data) []) key in
  match number_of value with
  | Some v =>
      if Qltb limit v
      then unsafe_if strict_mode (warn (HighNutrient key value limit) st)
      else st
  | None => st
  end.

(** The first indicator of the list that the text contains. *)
Fixpoint first_indicator (non_diet_indicators : list string) (text : string)
  : option string :=
  match non_diet_indicators with
  | [] => None
  | indicator :: rest =>
      if Py.str_in indicator text then Some indicator
      else first_indicator rest text
  end.

(** [check_diet_status]: the verdict it returns and the warnings list
    after the call. *)
Definition check_diet_status (product_data : Product) (strict_mode : bool)
  (warnings : list warning) (diet_type : string)
  (non_diet_indicators : list string) : bool * list warning :=
  let ingredients_text := ingredients_lower product_data in
  let diet_labels := Py.field (labels_tags product_data) [] in
  let is_explicitly_labeled :=
    existsb (fun label => Py.str_in diet_type (Py.lower label)) diet_labels in
  if Py.str_in (diet_type ++ " status unknown") (Py.lower ingredients_text)
  then (false, (warnings ++ [StatusUnknownExplicit diet_type])%list)
  else if is_explicitly_labeled then (true, warnings)
  else
    match first_indicator non_diet_indicators (Py.lower ingredients_text) with
    | Some indicator =>
        (false, (warnings ++ [NotDiet diet_type indicator])%list)
    | None =>
        if String.eqb ingredients_text ""
           || (String.length (Py.strip ingredients_text) <? 20)%nat
        then (negb strict_mode,
              (warnings ++ [StatusUnknownInsufficient diet_type strict_mode])%list)
        else (true, warnings)
    end.

Definition non_vegan_indicators : list string :=
  [ "milk"; "egg"; "meat"; "fish"; "honey"; "gelatin"; "whey"; "casein";
    "dairy"; "cheese"; "butter"; "cream"; "lactose"; "chicken"; "beef";
    "pork"; "bacon"; "lard" ].

Definition non_vegetarian_indicators : list string :=
  [ "meat"; "fish"; "chicken"; "beef"; "pork"; "bacon"; "lard"; "gelatin";
    "anchovies"; "tuna"; "salmon"; "cod" ].

(** [if dietary_prefs.get(diet, False): if not check_diet_status(...): is_safe = False]. *)
Definition check_diet (product_data : Product) (strict_mode : bool)
  (dietary_prefs : list (string * bool)) (diet_type : string)
  (non_diet_indicators : list string) (st : Verdict) : Verdict :=
  if Py.get_default dietary_prefs diet_type false then
    let (compliant, ws) :=
      check_diet_status product_data strict_mode (warnings st) diet_type
        non_diet_indicators in
    {| is_safe := if compliant then is_safe st else false;
       warnings := ws;
       recommendations := recommendations st |}
  else st.

(** The body of [for additive in avoid_additives]. *)
Definition check_additive (product_data : Product) (strict_mode : bool)
  (st : Verdict) (additive : string) : Verdict :=
  if existsb (fun tag => Py.str_in (Py.lower additive) (Py.lower tag))
             (Py.field (additives_tags product_data) [])
  then unsafe_if strict_mode (warn (AvoidedAdditive additive) st)
  else st.

(** One of the two recommendation tests:
    [dietary_prefs.get(pref, False) and nutriments.get(key, 0) > bound]. *)
Definition check_recommendation (dietary_prefs : list (string * bool))
  (nutriments : list (string * pyval)) (pref key : string) (bound : Q)
  (r : recommendation) (st : Verdict) : result Verdict :=
  if Py.get_default dietary_prefs pref false then
    over <- gt_number (Py.get_default nutriments key (PyInt 0)) bound ;;
    Ok (if over then recommend r st else st)
  else Ok st.

(** The checks that write [is_safe] and [warnings], in the order of the
    source. *)
Definition safety_checks (profile : Profile) (product_data : Product)
  (strict_mode : bool) : Verdict :=
  let dietary_prefs := Py.field (dietary_preferences profile) [] in
  let st0 := {| is_safe := true; warnings := []; recommendations := [] |} in
  let st1 := fold_left (check_allergy product_data)
               (Py.field (allergies profile) []) st0 in
  let st2 := fold_left (check_intolerance product_data strict_mode)
               (Py.field (intolerances profile) []) st1 in
  let st3 := fold_left (check_nutrient_limit product_data strict_mode)
               (Py.field (nutrient_limits profile) []) st2 in
  let st4 := check_diet product_data strict_mode dietary_prefs
               "vegan" non_vegan_indicators st3 in
  let st5 := check_diet product_data strict_mode dietary_prefs
               "vegetarian" non_vegetarian_indicators st4 in
  fold_left (check_additive product_data strict_mode)
    (Py.field (avoid_additives profile) []) st5.

Definition analyze_product_safety (USER_PROFILE : option Profile)
  (product_data : Product) (strict_mode : bool) : result Verdict :=
  match USER_PROFILE with
  | None => Ok {| is_safe := true; warnings := []; recommendations := [] |}
  | Some profile =>
      let dietary_prefs := Py.field (dietary_preferences profile) [] in
      let nutriments := Py.field (nutriments product_data) [] in
      let st := safety_checks profile product_data strict_mode in
      st' <- check_recommendation dietary_prefs nutriments
               "low_sugar" "sugars_100g" 5 LowSugarAlternative st ;;
      check_recommendation dietary_prefs nutriments
        "low_salt" "salt_100g" (3 # 2) LowSaltAlternative st'
  end.

(** ** The candidate loop of [search_food_product] *)

(** The two locals of the loop: the admitted candidates, each with its
    verdict, and the counter of candidates looked at. *)
Record SearchState : Type := {
  filtered_results : list (Product * Verdict);
  total_checked : nat
}.

(** [for i, product in enumerate(products)]: a rejected candidate takes
    the [continue]; the test that ends the loop is the last statement of
    the body. *)
Fixpoint search_loop (USER_PROFILE : option Profile) (filters : Filters)
  (products : list Product) (st : SearchState) : result SearchState :=
  match products with
  | [] => Ok st
  | product :: rest =>
      let checked := S (total_checked st) in
      meets <- (if has_nutrient_filters filters
                then meets_nutrient_filters filters product
                else Ok (true, None)) ;;
      if negb (fst meets) then
        search_loop USER_PROFILE filters rest
          {| filtered_results := filtered_results st;
             total_checked := checked |}
      else
        verdict <- analyze_product_safety USER_PROFILE product false ;;
        let results := (filtered_results st ++ [(product, verdict)])%list in
        let st' := {| filtered_results := results;
                      total_checked := checked |} in
        if (10 <=? List.length results)%nat || (50 <=? checked)%nat
        then Ok st'
        else search_loop USER_PROFILE filters rest st'
  end.

(** What [search_food_product] answers once the catalogue has returned
    [products]: an exception of the loop is caught by its
    [except Exception] and answered with [success = False]. *)
Inductive Response : Type :=
| Success (st : SearchState)
| Failure (e : exn).

Definition search_food_product (USER_PROFILE : option Profile)
  (filters : Filters) (products : list Product) : Response :=
  match search_loop USER_PROFILE filters products
          {| filtered_results := []; total_checked := 0 |} with
  | Ok st => Success st
  | Raise e => Failure e
  end.

(** ** Sample data *)

(** A product with the given ingredients text, label tags and nutrient
    mapping, every other key absent. *)
Definition sample_product (ingredients : option string)
  (label_tags : option (list string))
  (nutrients : option (list (string * pyval))) : Product :=
  {| product_name := None; generic_name := None; categories := None;
     labels := None; traces := None;
     ingredients_text := ingredients;
     allergens_tags := None;
     labels_tags := label_tags;
     categories_tags := None; additives_tags := None;
     ingredients_analysis_tags := None;
     nutriments := nutrients |}.

(** A profile with the given allergies, preferences and nutrient limits. *)
Definition sample_profile (allergy_list : list string)
  (prefs : list (string * bool)) (limit_map : list (string * Q)) : Profile :=
  {| profile_name := Some "Custom Profile";
     allergies := Some allergy_list;
     intolerances := None;
     medical_conditions := None;
     dietary_preferences := Some prefs;
     avoid_additives := None;
     nutrient_limits := Some limit_map |}.

(** The filters of a call that passes [low_fat], [max_fat] and [no_nuts]
    only. *)
Definition sample_filters (low : bool) (explicit : option Q) (nuts : bool)
  : Filters :=
  {| low_fat := low; low_fiber := false; low_sugar := false;
     low_salt := false; no_nuts := nuts;
     max_calories := None; min_calories := None;
     max_fat := explicit; max_fiber := None; min_fiber := None;
     max_sugar := None; max_salt := None;
     min_protein := None; max_protein := None |}.

(** The four boolean shorthands of the filters and the bound each one
    stands for. *)
Inductive shorthand : Type :=
| Fat
| Fiber
| Sugar
| Salt.

Definition implicit_bound (s : shorthand) : Q :=
  match s with
  | Fat => 3
  | Fiber => 3
  | Sugar => 5
  | Salt => 3 # 10
  end.

Definition shorthand_limit (s : shorthand) (filters : Filters) : option Q :=
  match s with
  | Fat => fat_limit filters
  | Fiber => fiber_limit filters
  | Sugar => sugar_limit filters
  | Salt => salt_limit filters
  end.

(** [filters] with the [low_*] and [max_*] parameters of one shorthand
    replaced. *)
Definition set_shorthand (s : shorthand) (filters : Filters) (low : bool)
  (explicit : option Q) : Filters :=
  {| low_fat := match s with Fat => low | _ => low_fat filters end;
     low_fiber := match s with Fiber => low | _ => low_fiber filters end;
     low_sugar := match s with Sugar => low | _ => low_sugar filters end;
     low_salt := match s with Salt => low | _ => low_salt filters end;
     no_nuts := no_nuts filters;
     max_calories := max_calories filters;
     min_calories := min_calories filters;
     max_fat := match s with Fat => explicit | _ => max_fat filters end;
     max_fiber := match s with Fiber => explicit | _ => max_fiber filters end;
     min_fiber := min_fiber filters;
     max_sugar := match s with Sugar => explicit | _ => max_sugar filters end;
     max_salt := match s with Salt => explicit | _ => max_salt filters end;
     min_protein := min_protein filters;
     max_protein := max_protein filters |}.

(** Products and profiles of the examples. *)
Definition fatty_product : Product :=
  sample_product None None (Some [("fat_100g", PyInt 10)]).
Definition lean_product : Product :=
  sample_product None None (Some [("fat_100g", PyInt 1)]).
Definition unparsable_fat_product : Product :=
  sample_product None None (Some [("fat_100g", PyStr "n/a")]).
Definition textual_sugar_product : Product :=
  sample_product None None (Some [("sugars_100g", PyStr "high")]).
Definition unsuffixed_sugar_product : Product :=
  sample_product None None (Some [("sugars", PyInt 20)]).
Definition sugary_product : Product :=
  sample_product None None (Some [("sugars_100g", PyInt 20)]).
Definition hazelnut_percent_product : Product :=
  sample_product None None (Some [("note", PyStr "hazelnut: 2.5%")]).
Definition zero_percent_product : Product :=
  sample_product None None (Some [("note", PyStr "nuts: 0%")]).
Definition mixed_percent_product : Product :=
  sample_product None None (Some [("note", PyStr "hazelnut: 2.5%, nuts: 0%")]).
Definition walnut_product : Product :=
  sample_product (Some "contains walnut") None None.
Definition unknown_vegan_product : Product :=
  sample_product (Some "Sugar, cocoa. vegan status unknown")
                 (Some ["en:vegan"]) None.

Definition low_sugar_profile : Profile :=
  sample_profile [] [("low_sugar", true)] [].
Definition sugar_limit_profile : Profile :=
  sample_profile [] [] [("sugars_100g", 10)].
Definition nuts_profile : Profile := sample_profile ["nuts"] [] [].

Definition oversized_fat_product : Product :=
  sample_product None None (Some [("fat_100g", PyInt (10 ^ 400))]).
Definition rounded_fat_product : Product :=
  sample_product None None (Some [("fat_100g", PyInt (2 ^ 53 + 1))]).

Definition low_fat_filters : Filters := sample_filters true None false.
Definition no_nuts_filters : Filters := sample_filters false None true.

(** Further records and profiles of the examples. *)
Definition milk_profile : Profile := sample_profile ["Milk"] [] [].
Definition milk_powder_product : Product :=
  sample_product (Some "Sugar, MILK powder") None None.
Definition additive_profile : Profile :=
  {| profile_name := None; allergies := None;
     intolerances := Some ["Lactose"];
     medical_conditions := None; dietary_preferences := None;
     avoid_additives := Some ["E621"]; nutrient_limits := None |}.
Definition seasoned_whey_product : Product :=
  {| product_name := Some "Crisps"; generic_name := None; categories := None;
     labels := None; traces := None;
     ingredients_text := Some "potato, whey, lactose, flavour enhancer";
     allergens_tags := None; labels_tags := None; categories_tags := None;
     additives_tags := Some ["en:e621"];
     ingredients_analysis_tags := None; nutriments := None |}.
Definition vegan_profile : Profile := sample_profile [] [("vegan", true)] [].
Definition milk_bread_product : Product :=
  sample_product (Some "milk, sugar, wheat flour") None None.
Definition oat_drink_product : Product :=
  {| product_name := Some "Oat drink"; generic_name := None;
     categories := None; labels := Some "Organic, Vegan"; traces := None;
     ingredients_text := Some "water, oats, sunflower oil, sea salt";
     allergens_tags := None; labels_tags := None; categories_tags := None;
     additives_tags := None; ingredients_analysis_tags := None;
     nutriments := None |}.
Definition no_filters : Filters := sample_filters false None false.
Definition clean_verdict : Verdict :=
  {| is_safe := true; warnings := []; recommendations := [] |}.

Definition coconut_product : Product :=
  sample_product (Some "Coconut oil, sugar") None None.

(** ** The indicator of a search result and the advice of a lookup *)

(** The indicator [search_food_product] appends to a result line. *)
Inductive indicator : Type :=
| NOT_SAFE
| CAUTION
| SAFE.

Definition safety_indicator (v : Verdict) : indicator :=
  if negb (is_safe v) then NOT_SAFE
  else match warnings v with
       | _ :: _ => CAUTION
       | [] => SAFE
       end.

(** The closing line of the dietary analysis that [get_product_nutrition]
    adds to its message. *)
Inductive advice : Type :=
| NotRecommended
| ReviewWarnings
| AppearsSuitable.

Definition is_nil {A : Type} (l : list A) : bool :=
  match l with
  | [] => true
  | _ :: _ => false
  end.

(** [if warnings or recommendations:] and what follows it; [None] when the
    analysis section is left out of the message. *)
Definition dietary_analysis (v : Verdict) : option advice :=
  if negb (is_nil (warnings v)) || negb (is_nil (recommendations v)) then
    Some (if negb (is_safe v) then NotRecommended
          else if negb (is_nil (warnings v)) then ReviewWarnings
          else AppearsSuitable)
  else None.

(** ** [search_vegan_products] and [search_vegetarian_products] *)

(** What one request to the catalogue gave: the [products] of a 200
    answer, another status code, or an exception of the request or of its
    decoding. *)
Inductive fetch : Type :=
| Fetched (products : list Product)
| BadStatus
| RequestFailed.

(** [diet in product.get('labels', '').lower()]. *)
Definition labelled (diet : string) (product : Product) : bool :=
  Py.str_in diet (Py.lower (Py.field (labels product) "")).

(** The products of an answer that carry the diet in their labels text. *)
Definition verified (diet : string) (answer : fetch) : list Product :=
  match answer with
  | Fetched products => filter (labelled diet) products
  | BadStatus | RequestFailed => []
  end.

(** The body shared by the two functions: the label search first, the
    label URL when that gave nothing; any exception gives the empty list.
    The second request is made only when the first one returned. *)
Definition search_labelled_products (diet : string) (first second : fetch)
  : list Product :=
  match first with
  | RequestFailed => []
  | Fetched _ | BadStatus =>
      match verified diet first with
      | [] => verified diet second
      | found => found
      end
  end.

Definition search_vegan_products (first second : fetch) : list Product :=
  search_labelled_products "vegan" first second.

Definition search_vegetarian_products (first second : fetch) : list Product :=
  search_labelled_products "vegetarian" first second.

(** ** [search_safe_food_only] *)

(** The locals of its loops: the products listed so far and the counter
    of products analysed. *)
Record SafeState : Type := {
  safe_products : list Product;
  safe_checked : nat
}.

(** What the function answers: no profile is set, the general request
    failed, or the listing (which may be empty). *)
Inductive SafeResponse : Type :=
| NoProfileSet
| RequestError
| Listing (st : SafeState).

(** One of the three loops.  Each analyses the product in strict mode and
    lists it when it is safe with no warning, stopping at ten listed
    products; the general loop ([cap = Some 20]) first tests
    [total_checked >= 20]. *)
Fixpoint safe_loop (USER_PROFILE : option Profile) (cap : option nat)
  (products : list Product) (st : SafeState) : result SafeState :=
  match products with
  | [] => Ok st
  | product :: rest =>
      if match cap with
         | Some n => (n <=? safe_checked st)%nat
         | None => false
         end
      then Ok st
      else
        let checked := S (safe_checked st) in
        verdict <- analyze_product_safety USER_PROFILE product true ;;
        if is_safe verdict && is_nil (warnings verdict) then
          let listed := (safe_products st ++ [product])%list in
          let st' := {| safe_products := listed; safe_checked := checked |} in
          if (10 <=? List.length listed)%nat then Ok st'
          else safe_loop USER_PROFILE cap rest st'
        else
          safe_loop USER_PROFILE cap rest
            {| safe_products := safe_products st; safe_checked := checked |}
  end.

(** [search_safe_food_only] once the catalogue has answered:
    [vegan_products] and [vegetarian_products] are what the two label
    searches returned, [general] is the answer to the general request. *)
Definition search_safe_food_only (USER_PROFILE : option Profile)
  (vegan_products vegetarian_products : list Product) (general : fetch)
  : result SafeResponse :=
  match USER_PROFILE with
  | None => Ok NoProfileSet
  | Some profile =>
      let dietary_prefs := Py.field (dietary_preferences profile) [] in
      let st0 := {| safe_products := []; safe_checked := 0 |} in
      st1 <- (if Py.get_default dietary_prefs "vegan" false
              then safe_loop USER_PROFILE None (firstn 10 vegan_products) st0
              else if Py.get_default dietary_prefs "vegetarian" false
              then safe_loop USER_PROFILE None
                     (firstn 10 vegetarian_products) st0
              else Ok st0) ;;
      if (List.length (safe_products st1) <? 5)%nat then
        match general with
        | Fetched products =>
            st2 <- safe_loop USER_PROFILE (Some 20%nat) (firstn 20 products) st1 ;;
            Ok (Listing st2)
        | BadStatus => Ok (Listing st1)
        | RequestFailed => Ok RequestError
        end
      else Ok (Listing st1)
  end.

(** ** Relating the two modes *)

(** The strict locals [s] against the lenient locals [l] of the same
    record: lenient is safe whenever strict is, with as many warnings and
    the same recommendations. *)
Definition no_stricter (s l : Verdict) : Prop :=
  (is_safe s = true -> is_safe l = true)
  /\ List.length (warnings s) = List.length (warnings l)
  /\ recommendations s = recommendations l.

(** ** What a verdict with no warning establishes about a diet *)

(** The record is positively established for the diet: it does not disclose
    an unknown status, and it either carries a label tag naming the diet or
    has an ingredients text of at least 20 characters (stripped) with none
    of the diet's negative indicators. *)
Definition diet_established (product_data : Product) (diet_type : string)
  (indicators : list string) : Prop :=
  Py.str_in (diet_type ++ " status unknown") (ingredients_lower product_data)
  = false
  /\ (existsb (fun label => Py.str_in diet_type (Py.lower label))
              (Py.field (labels_tags product_data) []) = true
      \/ (first_indicator indicators (ingredients_lower product_data) = None
          /\ (20 <= String.length (Py.strip (ingredients_lower product_data)))%nat)).

(** The two diets the analyzer knows, each with its indicator list. *)
Definition known_diet (diet_type : string) (indicators : list string) : Prop :=
  (diet_type = "vegan" /\ indicators = non_vegan_indicators)
  \/ (diet_type = "vegetarian" /\ indicators = non_vegetarian_indicators).

(** ** The bounds of a search, declaratively *)

(** A value that is a number respects the maximum, respectively the
    minimum; an absent bound and an absent value respect everything. *)
Definition at_most (bound : option Q) (v : pyval) : Prop :=
  match bound, number_of v with
  | Some l, Some q => (q <= l)%Q
  | _, _ => True
  end.

Definition at_least (bound : option Q) (v : pyval) : Prop :=
  match bound, number_of v with
  | Some l, Some q => (l <= q)%Q
  | _, _ => True
  end.

(** Every value of the mapping is a number or [None]. *)
Definition numeric_values (values : list (string * pyval)) : Prop :=
  forall key v, Py.get values key = Some v ->
                v = PyNone \/ number_of v <> None.

(** Every integer of the mapping is at most [2^53] in magnitude, so that
    [float] returns it unchanged. *)
Definition exact_integers (values : list (string * pyval)) : Prop :=
  forall key z, Py.get values key = Some (PyInt z) -> (Z.abs z <= 2 ^ 53)%Z.

(** All the bounds of [filters] hold of the mapping. *)
Definition within_bounds (filters : Filters) (values : list (string * pyval))
  : Prop :=
  at_most (calorie_limit filters)
          (nutrient values "energy-kcal_100g" "energy-kcal")
  /\ at_most (fat_limit filters) (nutrient values "fat_100g" "fat")
  /\ at_most (fiber_limit filters) (nutrient values "fiber_100g" "fiber")
  /\ at_most (sugar_limit filters) (nutrient values "sugars_100g" "sugars")
  /\ at_most (salt_limit filters) (nutrient values "salt_100g" "salt")
  /\ at_least (min_protein_limit filters)
              (nutrient values "proteins_100g" "proteins")
  /\ at_most (max_protein_limit filters)
             (nutrient values "proteins_100g" "proteins")
  /\ at_least (min_calorie_limit filters)
              (nutrient values "energy-kcal_100g" "energy-kcal")
  /\ at_least (min_fiber_limit filters) (nutrient values "fiber_100g" "fiber").

(** [small] is [big] with some elements left out, in the same order. *)
Inductive subsequence {A : Type} : list A -> list A -> Prop :=
| subseq_nil : subsequence [] []
| subseq_skip (x : A) (small big : list A) :
    subsequence small big -> subsequence small (x :: big)
| subseq_take (x : A) (small big : list A) :
    subsequence small big -> subsequence (x :: small) (x :: big).

(** ** Predicates on the analyzer's locals *)

(** What one check may do to the locals: nothing, or append one warning
    and either keep [is_safe] or clear it. *)
Inductive grows (st : Verdict) : Verdict -> Prop :=
| grows_same : grows st st
| grows_warn (w : warning) (b : bool) :
    b = is_safe st \/ b = false ->
    grows st {| is_safe := b;
                warnings := (warnings st ++ [w])%list;
                recommendations := recommendations st |}.

(** An unsafe verdict carries a warning. *)
Definition justified (st : Verdict) : Prop :=
  is_safe st = false -> warnings st <> [].

(** [is_safe] is never raised again and warnings are only appended. *)
Definition extends (st st' : Verdict) : Prop :=
  (is_safe st = false -> is_safe st' = false)
  /\ exists more, warnings st' = (warnings st ++ more)%list.

(** The warning [w] has been given and, under strict mode, the verdict is
    unsafe. *)
Definition flagged (w : warning) (strict_mode : bool) (st : Verdict) : Prop :=
  In w (warnings st) /\ (strict_mode = true -> is_safe st = false).

(** The record is safe under strict analysis and draws no warning. *)
Definition strictly_clean (USER_PROFILE : option Profile) (product : Product)
  : Prop :=
  exists v,
    analyze_product_safety USER_PROFILE product true = Ok v
    /\ is_safe v = true /\ warnings v = [].

(** The six words that decide a keyword search for nuts. *)
Definition core_nut_words : list string :=
  [ "nut"; "almond"; "cashew"; "pistachio"; "pecan"; "macadamia" ].

(** A double that is not negative (and not NaN). *)
Definition nonnegative (x : double) : Prop :=
  match x with
  | Finite q => (0 <= q)%Q
  | Infinity negative => negative = false
  | NaN => False
  end.

(** ** What the percentage pattern can capture *)

Fixpoint all_chars (p : ascii -> bool) (s : string) : bool :=
  match s with
  | EmptyString => true
  | String c t => p c && all_chars p t
  end.

(** Digits, optionally followed by a point and more digits: the texts of
    the pattern's group. *)
Definition decimal_text (g : string) : Prop :=
  exists ip tail,
    g = ip ++ tail
    /\ ip <> "" /\ all_chars is_digit ip = true
    /\ (tail = ""
        \/ exists fp, tail = String "." fp
                      /\ fp <> "" /\ all_chars is_digit fp = true).

Fixpoint group_free (r : regex) : bool :=
  match r with
  | Lit _ | StarG _ | StarL _ | PlusG _ => true
  | Opt r1 => group_free r1
  | Alt r1 r2 | Seq r1 r2 => group_free r1 && group_free r2
  | Grp _ => false
  end.

(** * Properties *)

(** ** Text lemmas *)

Lemma lower_char_idem (c : ascii) :
  Py.lower_char (Py.lower_char c) = Py.lower_char c.
Proof. destruct c as [[] [] [] [] [] [] [] []]; reflexivity. Qed.

Lemma lower_idem (s : string) : Py.lower (Py.lower s) = Py.lower s.
Proof.
  induction s as [|c t IH]; simpl; [reflexivity|].
  now rewrite lower_char_idem, IH.
Qed.


Lemma lower_app (s1 s2 : string) :
  Py.lower (s1 ++ s2) = Py.lower s1 ++ Py.lower s2.
Proof. induction s1 as [|c t IH]; simpl; congruence. Qed.

Lemma prefix_lower (p : string) :
  forall s, prefix p s = true -> prefix (Py.lower p) (Py.lower s) = true.
Proof.
  induction p as [|a p IH]; intros s H; [now destruct s|].
  destruct s as [|b s]; simpl in *; [discriminate|].
  destruct (ascii_dec a b) as [->|Hab]; [|discriminate].
  destruct (ascii_dec (Py.lower_char b) (Py.lower_char b)); [auto|congruence].
Qed.

Lemma str_in_lower (p s : string) :
  Py.str_in p s = true -> Py.str_in (Py.lower p) (Py.lower s) = true.
Proof.
  induction s as [|c t IH]; simpl; intros H.
  - rewrite orb_false_r in *. now apply (prefix_lower p "").
  - apply orb_true_iff in H. apply orb_true_iff. destruct H as [H|H].
    + left. now apply (prefix_lower p (String c t)).
    + right. now apply IH.
Qed.




(** ** The diet status classifier *)

Lemma ingredients_lower_idem (product_data : Product) :
  Py.lower (ingredients_lower product_data) = ingredients_lower product_data.
Proof. apply lower_idem. Qed.

(** The first branch of [check_diet_status], on the text the code tests. *)
Lemma status_unknown_first (product_data : Product) (strict_mode : bool)
  (ws : list warning) (diet_type : string) (indicators : list string) :
  Py.str_in (diet_type ++ " status unknown")
            (ingredients_lower product_data) = true ->
  check_diet_status product_data strict_mode ws diet_type indicators
  = (false, (ws ++ [StatusUnknownExplicit diet_type])%list).
Proof.
  intros H. unfold check_diet_status.
  rewrite ingredients_lower_idem, H. reflexivity.
Qed.

(** C5. A record whose ingredients text contains the phrase
    "<diet> status unknown" (for a lower-case diet name, as "vegan" and
    "vegetarian" are) is reported non-compliant with the explicit
    status-unknown warning appended, whatever its label tags are: the
    disclosure is tested before the label. *)
Theorem status_unknown_beats_label (product_data : Product)
  (strict_mode : bool) (ws : list warning) (diet_type text : string)
  (indicators : list string) :
  ingredients_text product_data = Some text ->
  Py.lower diet_type = diet_type ->
  Py.str_in (diet_type ++ " status unknown") text = true ->
  check_diet_status product_data strict_mode ws diet_type indicators
  = (false, (ws ++ [StatusUnknownExplicit diet_type])%list).
Proof.
  intros Htext Hlow Hin. apply status_unknown_first.
  unfold ingredients_lower. rewrite Htext. simpl.
  apply str_in_lower in Hin. rewrite lower_app, Hlow in Hin. exact Hin.
Qed.



(** ** The safety analyzer *)

(** C4. With no active profile every record, in either mode, is
    classified safe with no warning and no recommendation. *)
Theorem no_profile_trivially_safe (product_data : Product)
  (strict_mode : bool) :
  analyze_product_safety None product_data strict_mode
  = Ok {| is_safe := true; warnings := []; recommendations := [] |}.
Proof. reflexivity. Qed.

Create HintDb analyzer.
#[local] Hint Constructors grows : analyzer.

Lemma grows_warn_keep (w : warning) (st : Verdict) : grows st (warn w st).
Proof. unfold warn. apply grows_warn. now left. Qed.

Lemma grows_warn_unsafe (w : warning) (st : Verdict) :
  grows st (unsafe (warn w st)).
Proof. unfold unsafe, warn. simpl. apply grows_warn. now right. Qed.

Lemma grows_warn_unsafe_if (w : warning) (strict_mode : bool) (st : Verdict) :
  grows st (unsafe_if strict_mode (warn w st)).
Proof.
  destruct strict_mode; simpl; [apply grows_warn_unsafe | apply grows_warn_keep].
Qed.

#[local] Hint Resolve grows_warn_keep grows_warn_unsafe grows_warn_unsafe_if
  : analyzer.

Lemma grows_justified (st st' : Verdict) :
  grows st st' -> justified st -> justified st'.
Proof.
  intros [|w b _] Hj; [exact Hj|].
  intros _. simpl. now destruct (warnings st).
Qed.

Lemma grows_extends (st st' : Verdict) : grows st st' -> extends st st'.
Proof.
  intros [|w b Hb]; split; simpl.
  - auto.
  - exists []. now rewrite app_nil_r.
  - intros Hf. destruct Hb; congruence.
  - now exists [w].
Qed.

Lemma extends_refl (st : Verdict) : extends st st.
Proof. apply grows_extends. constructor. Qed.

Lemma extends_trans (a b c : Verdict) :
  extends a b -> extends b c -> extends a c.
Proof.
  intros [Hs1 [m1 Hw1]] [Hs2 [m2 Hw2]]. split; [auto|].
  exists (m1 ++ m2)%list. now rewrite Hw2, Hw1, app_assoc.
Qed.

Lemma check_allergy_grows (product_data : Product) (st : Verdict)
  (allergy : string) : grows st (check_allergy product_data st allergy).
Proof.
  unfold check_allergy.
  repeat match goal with |- context [if ?c then _ else _] => destruct c end;
    auto with analyzer.
Qed.

Lemma check_intolerance_grows (product_data : Product) (strict_mode : bool)
  (st : Verdict) (intolerance : string) :
  grows st (check_intolerance product_data strict_mode st intolerance).
Proof.
  unfold check_intolerance.
  destruct (Py.str_in _ _); auto with analyzer.
Qed.

Lemma check_nutrient_limit_grows (product_data : Product)
  (strict_mode : bool) (st : Verdict) (entry : string * Q) :
  grows st (check_nutrient_limit product_data strict_mode st entry).
Proof.
  unfold check_nutrient_limit. destruct entry as [key limit].
  destruct (number_of _); [destruct (Qltb _ _)|]; auto with analyzer.
Qed.

Lemma check_additive_grows (product_data : Product) (strict_mode : bool)
  (st : Verdict) (additive : string) :
  grows st (check_additive product_data strict_mode st additive).
Proof.
  unfold check_additive. destruct (existsb _ _); auto with analyzer.
Qed.

(** [check_diet_status] leaves the warnings alone and answers compliant,
    or appends one warning. *)
Lemma check_diet_status_cases (product_data : Product) (strict_mode : bool)
  (ws : list warning) (diet_type : string) (indicators : list string) :
  check_diet_status product_data strict_mode ws diet_type indicators
  = (true, ws)
  \/ exists b w,
       check_diet_status product_data strict_mode ws diet_type indicators
       = (b, (ws ++ [w])%list).
Proof.
  unfold check_diet_status.
  destruct (Py.str_in _ _); [right; eauto|].
  destruct (existsb _ _); [now left|].
  destruct (first_indicator _ _); [right; eauto|].
  destruct (_ || _); [right; eauto | now left].
Qed.

Lemma check_diet_grows (product_data : Product) (strict_mode : bool)
  (prefs : list (string * bool)) (diet_type : string)
  (indicators : list string) (st : Verdict) :
  grows st (check_diet product_data strict_mode prefs diet_type indicators st).
Proof.
  unfold check_diet. destruct (Py.get_default _ _ _); [|constructor].
  destruct (check_diet_status_cases product_data strict_mode (warnings st)
              diet_type indicators) as [E|[b [w E]]]; rewrite E.
  - destruct st; constructor.
  - apply grows_warn. destruct b; auto.
Qed.

#[local] Hint Resolve check_allergy_grows check_intolerance_grows
  check_nutrient_limit_grows check_additive_grows check_diet_grows : analyzer.

(** A property kept by every step of a loop holds after the loop. *)
Lemma fold_left_keeps {A : Type} (P : Verdict -> Prop)
  (f : Verdict -> A -> Verdict) :
  (forall st a, P st -> P (f st a)) ->
  forall l st, P st -> P (fold_left f l st).
Proof.
  intros Hstep l. induction l as [|a l IH]; intros st H; simpl; auto.
Qed.

(** A property established by the step at one element, and kept by every
    step, holds after the loop. *)
Lemma fold_left_hit {A : Type} (P : Verdict -> Prop)
  (f : Verdict -> A -> Verdict) (a : A) :
  (forall st, P (f st a)) ->
  (forall st b, P st -> P (f st b)) ->
  forall l st, In a l -> P (fold_left f l st).
Proof.
  intros Hhit Hkeep l. induction l as [|b l IH]; intros st Hin; [easy|].
  simpl. destruct Hin as [->|Hin]; [|now apply IH].
  apply fold_left_keeps; auto.
Qed.

Lemma safety_checks_justified (profile : Profile) (product_data : Product)
  (strict_mode : bool) :
  justified (safety_checks profile product_data strict_mode).
Proof.
  unfold safety_checks.
  apply fold_left_keeps;
    [intros; eapply grows_justified; eauto with analyzer|].
  do 2 (eapply grows_justified; [apply check_diet_grows|]).
  do 3 (apply fold_left_keeps;
        [intros; eapply grows_justified; eauto with analyzer|]).
  intros H. discriminate H.
Qed.

(** A recommendation test that returns leaves [is_safe] and the warnings
    as they were. *)
Lemma check_recommendation_keeps (prefs : list (string * bool))
  (nutriments : list (string * pyval)) (pref key : string) (bound : Q)
  (r : recommendation) (st st' : Verdict) :
  check_recommendation prefs nutriments pref key bound r st = Ok st' ->
  is_safe st' = is_safe st /\ warnings st' = warnings st.
Proof.
  unfold check_recommendation.
  destruct (Py.get_default prefs pref false); [|now intros [= <-]].
  destruct (gt_number _ _) as [[]|]; simpl; intros [= <-]; auto.
Qed.

(** The verdict returned under a profile has the [is_safe] and the
    warnings that the safety checks computed. *)
Lemma analyze_returns_checks (profile : Profile) (product_data : Product)
  (strict_mode : bool) (v : Verdict) :
  analyze_product_safety (Some profile) product_data strict_mode = Ok v ->
  is_safe v = is_safe (safety_checks profile product_data strict_mode)
  /\ warnings v = warnings (safety_checks profile product_data strict_mode).
Proof.
  unfold analyze_product_safety.
  destruct (check_recommendation _ _ "low_sugar" _ _ _ _) as [st'|] eqn:E1;
    simpl; [|discriminate].
  intros E2.
  apply check_recommendation_keeps in E1, E2.
  destruct E1, E2. split; congruence.
Qed.

(** C10. Whenever classification returns [is_safe = false], the returned
    warnings list is not empty. *)
Theorem unsafe_has_warning (USER_PROFILE : option Profile)
  (product_data : Product) (strict_mode : bool) (v : Verdict) :
  analyze_product_safety USER_PROFILE product_data strict_mode = Ok v ->
  is_safe v = false ->
  warnings v <> [].
Proof.
  destruct USER_PROFILE as [profile|].
  - intros Hv Hunsafe. apply analyze_returns_checks in Hv as [Hs Hw].
    rewrite Hw. apply safety_checks_justified. congruence.
  - intros [= <-]. discriminate.
Qed.

(** A warning once appended stays, and an unsafe verdict stays unsafe. *)
Lemma grows_keeps_flagged (w : warning) (strict_mode : bool)
  (st st' : Verdict) :
  grows st st' -> flagged w strict_mode st -> flagged w strict_mode st'.
Proof.
  intros Hg [Hin Hs]. apply grows_extends in Hg as [Hmono [more Hw]].
  split; [rewrite Hw; apply in_or_app; now left | auto].
Qed.

(** C3, as the code has it: a profile nutrient limit whose resolved
    numeric value exceeds the bound appends the HIGH warning in both modes
    and makes the verdict unsafe under strict mode; under lenient mode the
    limit check leaves [is_safe] as it found it. *)
Theorem nutrient_limit_violation (profile : Profile) (product_data : Product)
  (strict_mode : bool) (key : string) (limit q : Q) (v : Verdict) :
  In (key, limit) (Py.field (nutrient_limits profile) []) ->
  number_of (limited_value (Py.field (nutriments product_data) []) key)
  = Some q ->
  Qltb limit q = true ->
  analyze_product_safety (Some profile) product_data strict_mode = Ok v ->
  In (HighNutrient key
        (limited_value (Py.field (nutriments product_data) []) key) limit)
     (warnings v)
  /\ (strict_mode = true -> is_safe v = false)
  /\ (forall st entry,
        is_safe (check_nutrient_limit product_data false st entry)
        = is_safe st).
Proof.
  intros Hin Hnum Hover Hv.
  apply analyze_returns_checks in Hv as [Hs Hw]. rewrite Hs, Hw.
  apply and_assoc. split.
  - set (w := HighNutrient key _ limit).
    change (flagged w strict_mode
              (safety_checks profile product_data strict_mode)).
    unfold safety_checks.
    apply fold_left_keeps;
      [intros; eapply grows_keeps_flagged; eauto with analyzer|].
    do 2 (eapply grows_keeps_flagged; [apply check_diet_grows|]).
    apply (fold_left_hit _ _ (key, limit)); [| |exact Hin].
    + intros st. unfold check_nutrient_limit. rewrite Hnum, Hover.
      destruct strict_mode; simpl; split;
        try (apply in_or_app; right; now left); auto; discriminate.
    + intros; eapply grows_keeps_flagged; eauto with analyzer.
  - clear. intros st [k l]. unfold check_nutrient_limit.
    destruct (number_of _); [destruct (Qltb _ _)|]; reflexivity.
Qed.

(** ** Nut detection *)

Lemma Qltb_lt (x y : Q) : Qltb x y = true <-> (x < y)%Q.
Proof.
  unfold Qltb. rewrite negb_true_iff. split.
  - intros H. apply Qnot_le_lt. intros Hle.
    apply Qle_bool_iff in Hle. congruence.
  - intros H. destruct (Qle_bool y x) eqn:E; [|reflexivity].
    apply Qle_bool_iff in E. now apply Qlt_not_le in H.
Qed.


(** C7. The percentage rule on the serialised nutrient mapping holds of a
    single nut phrase and fails when two share a run of text.  The three
    examples behave as stated: "hazelnut: 2.5%" is detected, "nuts: 0%"
    alone is not, and a nut word in the ingredients text is.  But in
    "hazelnut: 2.5%, nuts: 0%" the greedy head of the pattern runs up to the
    last nut word, so that "0" is the only percentage extracted: the record,
    in which a nut word is followed by 2.5%, is not detected, it passes the
    [no_nuts] filter, and for a nuts allergy it is safe without a warning in
    both modes. *)
Theorem earlier_percentage_is_dropped :
  contains_nuts hazelnut_percent_product = true
  /\ contains_nuts zero_percent_product = false
  /\ contains_nuts walnut_product = true
  /\ nutriments_str mixed_percent_product
     = "{'note': 'hazelnut: 2.5%, nuts: 0%'}"
  /\ findall nuts_percentage_pattern (nutriments_str mixed_percent_product)
     = ["0"]
  /\ contains_nuts mixed_percent_product = false
  /\ meets_nutrient_filters no_nuts_filters mixed_percent_product
     = Ok (true, None)
  /\ forall strict_mode,
       analyze_product_safety (Some nuts_profile) mixed_percent_product
         strict_mode
       = Ok clean_verdict.
Proof.
  repeat split; try (intros []); vm_compute; reflexivity.
Qed.

(** ** The search filters *)

Lemma has_nutrient_filters_limit (s : shorthand) (filters : Filters) :
  is_some (shorthand_limit s filters) = true ->
  has_nutrient_filters filters = true.
Proof.
  unfold has_nutrient_filters.
  destruct s; simpl; intros ->; repeat (rewrite ?orb_true_r; simpl);
    reflexivity.
Qed.

(** The loop reads the filters through [has_nutrient_filters] and
    [meets_nutrient_filters] only. *)
Lemma search_loop_same (USER_PROFILE : option Profile) (f1 f2 : Filters) :
  has_nutrient_filters f1 = has_nutrient_filters f2 ->
  (forall product,
     meets_nutrient_filters f1 product = meets_nutrient_filters f2 product) ->
  forall products st,
    search_loop USER_PROFILE f1 products st
    = search_loop USER_PROFILE f2 products st.
Proof.
  intros Hhas Hmeets products.
  induction products as [|product rest IH]; intros st; simpl; [reflexivity|].
  rewrite Hhas, Hmeets.
  destruct (if has_nutrient_filters f2 then _ else _) as [[ok why]|e];
    simpl; [|reflexivity].
  destruct ok; simpl; [|apply IH].
  destruct (analyze_product_safety _ _ _) as [verdict|e]; simpl;
    [|reflexivity].
  destruct (_ || _); [reflexivity | apply IH].
Qed.

Lemma search_same (USER_PROFILE : option Profile) (f1 f2 : Filters)
  (products : list Product) :
  has_nutrient_filters f1 = has_nutrient_filters f2 ->
  (forall product,
     meets_nutrient_filters f1 product = meets_nutrient_filters f2 product) ->
  search_food_product USER_PROFILE f1 products
  = search_food_product USER_PROFILE f2 products.
Proof.
  intros Hhas Hmeets. unfold search_food_product.
  now rewrite (search_loop_same USER_PROFILE f1 f2 Hhas Hmeets).
Qed.

Lemma meets_explicit_any_low (s : shorthand) (filters : Filters)
  (low1 low2 : bool) (l : Q) (product : Product) :
  meets_nutrient_filters (set_shorthand s filters low1 (Some l)) product
  = meets_nutrient_filters (set_shorthand s filters low2 (Some l)) product.
Proof. destruct s; reflexivity. Qed.

Lemma meets_low_is_implicit (s : shorthand) (filters : Filters) (low : bool)
  (product : Product) :
  meets_nutrient_filters (set_shorthand s filters true None) product
  = meets_nutrient_filters
      (set_shorthand s filters low (Some (implicit_bound s))) product.
Proof. destruct s; reflexivity. Qed.

(** C8. A [low_*] shorthand with no explicit maximum admits and rejects
    exactly as the explicit maximum of its implicit bound does (3.0 for
    fat and fibre, 5.0 for sugar, 0.3 for salt); when an explicit maximum
    is given it is the bound in force, whatever the shorthand says. *)
Theorem shorthand_is_implicit_bound (s : shorthand) (filters : Filters)
  (USER_PROFILE : option Profile) (products : list Product) :
  (forall low,
     search_food_product USER_PROFILE (set_shorthand s filters true None)
       products
     = search_food_product USER_PROFILE
         (set_shorthand s filters low (Some (implicit_bound s))) products)
  /\ (forall low product,
        meets_nutrient_filters (set_shorthand s filters true None) product
        = meets_nutrient_filters
            (set_shorthand s filters low (Some (implicit_bound s))) product)
  /\ (forall low l,
        shorthand_limit s (set_shorthand s filters low (Some l)) = Some l)
  /\ (forall l,
        search_food_product USER_PROFILE (set_shorthand s filters true (Some l))
          products
        = search_food_product USER_PROFILE
            (set_shorthand s filters false (Some l)) products).
Proof.
  repeat split.
  - intros low. apply search_same; [|apply meets_low_is_implicit].
    rewrite !(has_nutrient_filters_limit s); destruct s; reflexivity.
  - intros low product. apply meets_low_is_implicit.
  - intros low l. destruct s; reflexivity.
  - intros l. apply search_same; [|intros; apply meets_explicit_any_low].
    rewrite !(has_nutrient_filters_limit s); destruct s; reflexivity.
Qed.

(** ** Where the code departs from its documentation *)

(** C1. A nutrient value that is text and not a number makes both
    operations raise: classification under a [low_sugar] preference
    orders the text against 5 ([TypeError]), and the search filter calls
    [float] on it ([ValueError]), which [search_food_product] answers with
    a failure instead of results. *)
Theorem non_numeric_nutrient_raises :
  analyze_product_safety (Some low_sugar_profile) textual_sugar_product false
  = Raise TypeError
  /\ meets_nutrient_filters low_fat_filters unparsable_fat_product
     = Raise ValueError
  /\ search_food_product None low_fat_filters [unparsable_fat_product]
     = Failure ValueError.
Proof. repeat split; vm_compute; reflexivity. Qed.

(** C2. Fifty candidates that the filter rejects do not end the loop: the
    fifty-first is looked at as well, and admitted. *)
Theorem rejected_candidates_pass_fifty :
  search_food_product None low_fat_filters
    (repeat fatty_product 50 ++ [lean_product])%list
  = Success
      {| filtered_results :=
           [(lean_product,
             {| is_safe := true; warnings := []; recommendations := [] |})];
         total_checked := 51 |}.
Proof. vm_compute. reflexivity. Qed.

(** C9. A record that reports its sugar under the unsuffixed key only gets
    no low-sugar recommendation, although the value the filters resolve
    for it (suffixed key, then unsuffixed key) is 20. *)
Theorem recommendation_reads_suffixed_key_only :
  nutrient (Py.field (nutriments unsuffixed_sugar_product) [])
    "sugars_100g" "sugars" = PyInt 20
  /\ gt_number (PyInt 20) 5 = Ok true
  /\ analyze_product_safety (Some low_sugar_profile) unsuffixed_sugar_product
       false
     = Ok {| is_safe := true; warnings := []; recommendations := [] |}
  /\ analyze_product_safety (Some low_sugar_profile) sugary_product false
     = Ok {| is_safe := true; warnings := [];
             recommendations := [LowSugarAlternative] |}.
Proof. repeat split; vm_compute; reflexivity. Qed.

(** ** What each check of the analyzer does to the verdict *)

(** One step of the proof that a flag survives the rest of the checks:
    the step goes through a loop or through a diet check. *)
Ltac keep_flagged :=
  first
    [ eapply grows_keeps_flagged; [apply check_diet_grows|]
    | apply fold_left_keeps;
      [intros; eapply grows_keeps_flagged; eauto with analyzer|] ].

Lemma flagged_unsafe_warn (w : warning) (strict_mode : bool) (st : Verdict) :
  flagged w strict_mode (unsafe (warn w st)).
Proof.
  split; simpl; [apply in_or_app; right; now left | reflexivity].
Qed.

Lemma flagged_unsafe_if_warn (w : warning) (strict_mode : bool)
  (st : Verdict) :
  flagged w strict_mode (unsafe_if strict_mode (warn w st)).
Proof.
  destruct strict_mode; simpl; split; simpl;
    try (apply in_or_app; right; now left); auto; discriminate.
Qed.

(** An allergy whose check fires, whatever the locals are, is reported and
    makes the returned verdict unsafe in either mode. *)
Lemma allergy_hit (profile : Profile) (product_data : Product)
  (strict_mode : bool) (allergy : string) (v : Verdict) :
  In allergy (Py.field (allergies profile) []) ->
  (forall st, check_allergy product_data st allergy
              = unsafe (warn (AllergyWarning allergy) st)) ->
  analyze_product_safety (Some profile) product_data strict_mode = Ok v ->
  is_safe v = false /\ In (AllergyWarning allergy) (warnings v).
Proof.
  intros Hin Hfire Hv.
  apply analyze_returns_checks in Hv as [Hs Hw]. rewrite Hs, Hw.
  cut (flagged (AllergyWarning allergy) true
         (safety_checks profile product_data strict_mode)).
  { intros [H1 H2]. split; [now apply H2 | exact H1]. }
  unfold safety_checks. do 5 keep_flagged.
  apply (fold_left_hit _ _ allergy); [| |exact Hin].
  - intros st. rewrite Hfire. apply flagged_unsafe_warn.
  - intros; eapply grows_keeps_flagged; eauto with analyzer.
Qed.

(** X1. An allergy of the profile, other than the nut family, whose name
    occurs (in lower case) in an allergen tag or in the ingredients text is
    reported with an allergy warning and makes the verdict unsafe, in
    strict and in lenient mode alike. *)
Theorem allergy_match_is_unsafe (profile : Profile) (product_data : Product)
  (strict_mode : bool) (allergy : string) (v : Verdict) :
  In allergy (Py.field (allergies profile) []) ->
  existsb (String.eqb (Py.lower allergy)) [ "nuts"; "nut"; "tree nuts" ]
  = false ->
  existsb (fun allergen => Py.str_in (Py.lower allergy) (Py.lower allergen))
          (Py.field (allergens_tags product_data) [])
  || Py.str_in (Py.lower allergy) (ingredients_lower product_data) = true ->
  analyze_product_safety (Some profile) product_data strict_mode = Ok v ->
  is_safe v = false /\ In (AllergyWarning allergy) (warnings v).
Proof.
  intros Hin Hnot Hmatch. apply allergy_hit; [exact Hin|].
  intros st. unfold check_allergy. now rewrite Hnot, Hmatch.
Qed.

(** X2. A nut allergy of the profile ("nuts", "nut" or "tree nuts", in any
    letter case) makes the verdict unsafe with an allergy warning, in
    either mode, as soon as one of the four nut signals of the record is
    present; the name itself is not searched for. *)
Theorem nut_allergy_is_unsafe (profile : Profile) (product_data : Product)
  (strict_mode : bool) (allergy : string) (v : Verdict) :
  In allergy (Py.field (allergies profile) []) ->
  In (Py.lower allergy) [ "nuts"; "nut"; "tree nuts" ] ->
  contains_nuts product_data = true ->
  analyze_product_safety (Some profile) product_data strict_mode = Ok v ->
  is_safe v = false /\ In (AllergyWarning allergy) (warnings v).
Proof.
  intros Hin Hnut Hsignal. apply allergy_hit; [exact Hin|].
  intros st. unfold check_allergy.
  assert (E : existsb (String.eqb (Py.lower allergy))
                [ "nuts"; "nut"; "tree nuts" ] = true).
  { apply existsb_exists. exists (Py.lower allergy).
    split; [exact Hnut | apply String.eqb_refl]. }
  now rewrite E, Hsignal.
Qed.

(** X3. An intolerance of the profile whose name occurs (in lower case) in
    the ingredients text is reported in both modes; it makes the verdict
    unsafe under strict mode, and under lenient mode its check never
    changes [is_safe]. *)
Theorem intolerance_is_advisory_unless_strict (profile : Profile)
  (product_data : Product) (strict_mode : bool) (intolerance : string)
  (v : Verdict) :
  In intolerance (Py.field (intolerances profile) []) ->
  Py.str_in (Py.lower intolerance) (ingredients_lower product_data) = true ->
  analyze_product_safety (Some profile) product_data strict_mode = Ok v ->
  In (IntoleranceWarning intolerance) (warnings v)
  /\ (strict_mode = true -> is_safe v = false)
  /\ (forall st name,
        is_safe (check_intolerance product_data false st name) = is_safe st).
Proof.
  intros Hin Hmatch Hv.
  apply analyze_returns_checks in Hv as [Hs Hw]. rewrite Hs, Hw.
  apply and_assoc. split.
  - change (flagged (IntoleranceWarning intolerance) strict_mode
              (safety_checks profile product_data strict_mode)).
    unfold safety_checks. do 4 keep_flagged.
    apply (fold_left_hit _ _ intolerance); [| |exact Hin].
    + intros st. unfold check_intolerance. rewrite Hmatch.
      apply flagged_unsafe_if_warn.
    + intros; eapply grows_keeps_flagged; eauto with analyzer.
  - clear. intros st name. unfold check_intolerance.
    destruct (Py.str_in _ _); reflexivity.
Qed.

(** X4. An avoided additive of the profile whose name occurs (in lower
    case) in an additive tag is reported in both modes; it makes the
    verdict unsafe under strict mode, and under lenient mode its check
    never changes [is_safe]. *)
Theorem additive_is_advisory_unless_strict (profile : Profile)
  (product_data : Product) (strict_mode : bool) (additive : string)
  (v : Verdict) :
  In additive (Py.field (avoid_additives profile) []) ->
  existsb (fun tag => Py.str_in (Py.lower additive) (Py.lower tag))
          (Py.field (additives_tags product_data) []) = true ->
  analyze_product_safety (Some profile) product_data strict_mode = Ok v ->
  In (AvoidedAdditive additive) (warnings v)
  /\ (strict_mode = true -> is_safe v = false)
  /\ (forall st name,
        is_safe (check_additive product_data false st name) = is_safe st).
Proof.
  intros Hin Hmatch Hv.
  apply analyze_returns_checks in Hv as [Hs Hw]. rewrite Hs, Hw.
  apply and_assoc. split.
  - change (flagged (AvoidedAdditive additive) strict_mode
              (safety_checks profile product_data strict_mode)).
    unfold safety_checks.
    apply (fold_left_hit _ _ additive); [| |exact Hin].
    + intros st. unfold check_additive. rewrite Hmatch.
      apply flagged_unsafe_if_warn.
    + intros; eapply grows_keeps_flagged; eauto with analyzer.
  - clear. intros st name. unfold check_additive.
    destruct (existsb _ _); reflexivity.
Qed.

(** ** The diet checks inside the analyzer *)

Lemma first_indicator_sound (indicators : list string) (text j : string) :
  first_indicator indicators text = Some j ->
  exists before after,
    indicators = (before ++ j :: after)%list
    /\ Py.str_in j text = true
    /\ forall i, In i before -> Py.str_in i text = false.
Proof.
  induction indicators as [|i rest IH]; simpl; [discriminate|].
  destruct (Py.str_in i text) eqn:E.
  - intros [= <-]. exists [], rest. repeat split; auto. intros ? [].
  - intros H. destruct (IH H) as (before & after & -> & Hj & Hb).
    exists (i :: before), after. repeat split; auto.
    intros k [<-|Hk]; auto.
Qed.

Lemma first_indicator_finds (indicators : list string) (text i : string) :
  In i indicators -> Py.str_in i text = true ->
  exists j, first_indicator indicators text = Some j.
Proof.
  induction indicators as [|k rest IH]; simpl; [easy|].
  intros Hin Hi. destruct (Py.str_in k text) eqn:E; [eauto|].
  destruct Hin as [->|Hin]; [congruence | auto].
Qed.

(** X5. With the vegan (or vegetarian) preference set, a record that has
    neither the status-unknown phrase nor a label tag naming the diet, and
    whose ingredients text contains one of the diet's negative indicators,
    is unsafe in strict and in lenient mode; the warning names an indicator
    that does occur in the text, the first such one in the order of the
    list: no indicator before it occurs in the text. *)
Theorem negative_indicator_is_unsafe (profile : Profile)
  (product_data : Product) (strict_mode : bool) (diet_type i : string)
  (indicators : list string) (v : Verdict) :
  known_diet diet_type indicators ->
  Py.get_default (Py.field (dietary_preferences profile) []) diet_type false
  = true ->
  Py.str_in (diet_type ++ " status unknown") (ingredients_lower product_data)
  = false ->
  existsb (fun label => Py.str_in diet_type (Py.lower label))
          (Py.field (labels_tags product_data) []) = false ->
  In i indicators ->
  Py.str_in i (ingredients_lower product_data) = true ->
  analyze_product_safety (Some profile) product_data strict_mode = Ok v ->
  is_safe v = false
  /\ exists j before after,
       In (NotDiet diet_type j) (warnings v)
       /\ indicators = (before ++ j :: after)%list
       /\ Py.str_in j (ingredients_lower product_data) = true
       /\ forall k, In k before ->
                    Py.str_in k (ingredients_lower product_data) = false.
Proof.
  intros Hdiet Hpref Hphrase Hlabel Hin Hi Hv.
  destruct (first_indicator_finds indicators _ i Hin Hi) as [j Hj].
  destruct (first_indicator_sound _ _ _ Hj) as (before & after & E & Hjin & Hb).
  apply analyze_returns_checks in Hv as [Hs Hw]. rewrite Hs, Hw.
  cut (flagged (NotDiet diet_type j) true
         (safety_checks profile product_data strict_mode)).
  { intros [H1 H2]. split; [now apply H2|]. exists j, before, after. auto. }
  assert (Hstep : forall st,
             flagged (NotDiet diet_type j) true
               (check_diet product_data strict_mode
                  (Py.field (dietary_preferences profile) [])
                  diet_type indicators st)).
  { intros st. unfold check_diet, check_diet_status.
    rewrite Hpref, ingredients_lower_idem, Hphrase, Hlabel, Hj.
    split; simpl; [apply in_or_app; right; now left | reflexivity]. }
  unfold safety_checks.
  destruct Hdiet as [[-> ->]|[-> ->]].
  - do 2 keep_flagged. apply Hstep.
  - keep_flagged. apply Hstep.
Qed.

Lemma grows_silent (st st' : Verdict) :
  grows st st' -> warnings st' = [] -> warnings st = [].
Proof.
  intros [|w b _]; [auto|]. simpl. intros H.
  now destruct (warnings st).
Qed.

Lemma fold_left_silent {A : Type} (f : Verdict -> A -> Verdict) :
  (forall st a, grows st (f st a)) ->
  forall l st, warnings (fold_left f l st) = [] -> warnings st = [].
Proof.
  intros Hg l. induction l as [|a l IH]; intros st H; [exact H|].
  simpl in H. apply IH in H. eapply grows_silent; eauto.
Qed.

(** A diet check that leaves no warning has found the record established
    for the diet. *)
Lemma check_diet_silent (product_data : Product) (strict_mode : bool)
  (prefs : list (string * bool)) (diet_type : string)
  (indicators : list string) (st : Verdict) :
  Py.get_default prefs diet_type false = true ->
  warnings (check_diet product_data strict_mode prefs diet_type indicators st)
  = [] ->
  diet_established product_data diet_type indicators.
Proof.
  intros Hpref. unfold check_diet, check_diet_status, diet_established.
  rewrite Hpref, ingredients_lower_idem.
  destruct (Py.str_in _ _); simpl; [intros H; now destruct (warnings st)|].
  destruct (existsb _ _); simpl; [auto|].
  destruct (first_indicator _ _); simpl;
    [intros H; now destruct (warnings st)|].
  destruct (String.eqb _ _); simpl; [intros H; now destruct (warnings st)|].
  destruct (_ <? 20)%nat eqn:E; simpl;
    [intros H; now destruct (warnings st)|].
  apply Nat.ltb_ge in E. auto.
Qed.

(** A verdict returned with no warning under a diet preference means the
    record is established for the diet. *)
Lemma silent_establishes (profile : Profile) (product_data : Product)
  (strict_mode : bool) (diet_type : string) (indicators : list string)
  (v : Verdict) :
  known_diet diet_type indicators ->
  Py.get_default (Py.field (dietary_preferences profile) []) diet_type false
  = true ->
  analyze_product_safety (Some profile) product_data strict_mode = Ok v ->
  warnings v = [] ->
  diet_established product_data diet_type indicators.
Proof.
  intros Hdiet Hpref Hv Hnil.
  apply analyze_returns_checks in Hv as [_ Hw]. rewrite Hw in Hnil.
  unfold safety_checks in Hnil.
  apply fold_left_silent in Hnil; [|auto with analyzer].
  destruct Hdiet as [[-> ->]|[-> ->]].
  - eapply grows_silent in Hnil; [|apply check_diet_grows].
    eapply check_diet_silent; eauto.
  - eapply check_diet_silent; eauto.
Qed.

(** X6. A verdict returned with no warning, in either mode, under a vegan
    (or vegetarian) preference means the record is established for the
    diet: no status-unknown phrase, and a label tag naming the diet or an
    ingredients text of at least 20 characters free of the diet's negative
    indicators.  A record with too little information is never returned
    without a warning. *)
Theorem silent_verdict_establishes_diet (profile : Profile)
  (product_data : Product) (strict_mode : bool) (diet_type : string)
  (indicators : list string) (v : Verdict) :
  known_diet diet_type indicators ->
  Py.get_default (Py.field (dietary_preferences profile) []) diet_type false
  = true ->
  analyze_product_safety (Some profile) product_data strict_mode = Ok v ->
  warnings v = [] ->
  diet_established product_data diet_type indicators.
Proof. exact (silent_establishes profile product_data strict_mode
                diet_type indicators v). Qed.

(** ** Strict against lenient *)

Lemma fold_left_related {A : Type} (R : Verdict -> Verdict -> Prop)
  (f g : Verdict -> A -> Verdict) :
  (forall s l a, R s l -> R (f s a) (g l a)) ->
  forall xs s l, R s l -> R (fold_left f xs s) (fold_left g xs l).
Proof.
  intros Hstep xs. induction xs as [|a xs IH]; intros s l H; simpl; auto.
Qed.

Lemma no_stricter_warn (w w' : warning) (strict_mode : bool) (s l : Verdict) :
  no_stricter s l ->
  no_stricter (unsafe_if strict_mode (warn w s)) (warn w' l).
Proof.
  intros (Hs & Hw & Hr). unfold no_stricter.
  destruct strict_mode; simpl; rewrite !length_app, Hw;
    repeat split; auto; discriminate.
Qed.

Lemma no_stricter_unsafe (w : warning) (s l : Verdict) :
  no_stricter s l -> no_stricter (unsafe (warn w s)) (unsafe (warn w l)).
Proof.
  intros (Hs & Hw & Hr). unfold no_stricter. simpl.
  rewrite !length_app, Hw. repeat split; auto.
Qed.

(** The classifier answers compliant under lenient mode whenever it does
    under strict mode, and appends a warning in the same cases. *)
Lemma check_diet_status_modes (product_data : Product)
  (ws ws' : list warning) (diet_type : string) (indicators : list string) :
  List.length ws = List.length ws' ->
  let strict := check_diet_status product_data true ws diet_type indicators in
  let lenient :=
    check_diet_status product_data false ws' diet_type indicators in
  (fst strict = true -> fst lenient = true)
  /\ List.length (snd strict) = List.length (snd lenient).
Proof.
  intros Hlen. unfold check_diet_status.
  destruct (Py.str_in _ _); simpl; [rewrite !length_app; auto|].
  destruct (existsb _ _); simpl; [auto|].
  destruct (first_indicator _ _); simpl; [rewrite !length_app; auto|].
  destruct (_ || _); simpl; [rewrite !length_app; auto | auto].
Qed.

Lemma check_diet_modes (product_data : Product)
  (prefs : list (string * bool)) (diet_type : string)
  (indicators : list string) (s l : Verdict) :
  no_stricter s l ->
  no_stricter (check_diet product_data true prefs diet_type indicators s)
              (check_diet product_data false prefs diet_type indicators l).
Proof.
  intros (Hs & Hw & Hr). unfold check_diet.
  destruct (Py.get_default _ _ _); [|repeat split; auto].
  pose proof (check_diet_status_modes product_data _ _ diet_type indicators Hw)
    as [Hc Hl].
  destruct (check_diet_status product_data true _ _ _) as [c ws].
  destruct (check_diet_status product_data false _ _ _) as [c' ws'].
  simpl in *. repeat split; simpl; auto.
  destruct c; [|discriminate]. rewrite (Hc eq_refl). auto.
Qed.

Lemma safety_checks_modes (profile : Profile) (product_data : Product) :
  no_stricter (safety_checks profile product_data true)
              (safety_checks profile product_data false).
Proof.
  unfold safety_checks.
  apply fold_left_related.
  { intros s l a H. unfold check_additive.
    destruct (existsb _ _); [now apply no_stricter_warn | exact H]. }
  do 2 apply check_diet_modes.
  apply fold_left_related.
  { intros s l [key limit] H. unfold check_nutrient_limit.
    destruct (number_of _); [destruct (Qltb _ _)|]; auto.
    now apply no_stricter_warn. }
  apply fold_left_related.
  { intros s l a H. unfold check_intolerance.
    destruct (Py.str_in _ _); [now apply no_stricter_warn | exact H]. }
  apply fold_left_related.
  { intros s l a H. unfold check_allergy.
    repeat match goal with
           | |- context [if ?c then _ else _] => destruct c
           end; auto using no_stricter_unsafe. }
  repeat split; auto.
Qed.

Lemma check_recommendation_modes (prefs : list (string * bool))
  (nutriments : list (string * pyval)) (pref key : string) (bound : Q)
  (r : recommendation) (s l : Verdict) :
  no_stricter s l ->
  match check_recommendation prefs nutriments pref key bound r s,
        check_recommendation prefs nutriments pref key bound r l with
  | Ok s', Ok l' => no_stricter s' l'
  | Raise e, Raise e' => e = e'
  | _, _ => False
  end.
Proof.
  intros (Hs & Hw & Hr). unfold check_recommendation.
  destruct (Py.get_default prefs pref false); [|repeat split; auto].
  destruct (gt_number _ _) as [[]|]; simpl; repeat split; simpl; auto.
  now rewrite Hr.
Qed.

(** X7. The two modes fail together, with the same exception; when they
    return, the lenient verdict is safe whenever the strict one is, carries
    as many warnings and has the same recommendations. *)
Theorem lenient_is_no_stricter (profile : Profile) (product_data : Product) :
  match analyze_product_safety (Some profile) product_data true,
        analyze_product_safety (Some profile) product_data false with
  | Ok strict, Ok lenient => no_stricter strict lenient
  | Raise e, Raise e' => e = e'
  | _, _ => False
  end.
Proof.
  unfold analyze_product_safety.
  pose proof (safety_checks_modes profile product_data) as H.
  pose proof (check_recommendation_modes
                (Py.field (dietary_preferences profile) [])
                (Py.field (nutriments product_data) [])
                "low_sugar" "sugars_100g" 5 LowSugarAlternative _ _ H) as H1.
  destruct (check_recommendation _ _ "low_sugar" _ _ _
              (safety_checks profile product_data true)) as [s1|e1];
    destruct (check_recommendation _ _ "low_sugar" _ _ _
                (safety_checks profile product_data false)) as [l1|e1'];
    simpl; try easy.
  apply check_recommendation_modes. exact H1.
Qed.

(** ** When classification returns, and what it recommends *)

Lemma grows_recommendations (st st' : Verdict) :
  grows st st' -> recommendations st' = recommendations st.
Proof. now intros [|w b _]. Qed.

Lemma safety_checks_recommend_nothing (profile : Profile)
  (product_data : Product) (strict_mode : bool) :
  recommendations (safety_checks profile product_data strict_mode) = [].
Proof.
  unfold safety_checks.
  apply (fold_left_keeps (fun st => recommendations st = []));
    [intros st a <-; apply grows_recommendations; auto with analyzer|].
  do 2 (erewrite grows_recommendations; [|apply check_diet_grows]).
  do 3 (apply (fold_left_keeps (fun st => recommendations st = []));
        [intros st a <-; apply grows_recommendations; auto with analyzer|]).
  reflexivity.
Qed.

(** The test of one recommendation: the preference is set and the value
    under the suffixed key is a number above the bound. *)
Lemma check_recommendation_ok (prefs : list (string * bool))
  (nutriments : list (string * pyval)) (pref key : string) (bound : Q)
  (r : recommendation) (st st' : Verdict) :
  check_recommendation prefs nutriments pref key bound r st = Ok st' ->
  exists fired : bool,
    st' = (if fired then recommend r st else st)
    /\ (fired = true <->
        Py.get_default prefs pref false = true
        /\ exists q, number_of (Py.get_default nutriments key (PyInt 0))
                     = Some q /\ (bound < q)%Q).
Proof.
  unfold check_recommendation, gt_number.
  destruct (Py.get_default prefs pref false).
  - destruct (number_of _) as [q|]; simpl; [|discriminate].
    intros [= <-]. exists (Qltb bound q). split; [reflexivity|].
    rewrite Qltb_lt. split.
    + intros H. split; [reflexivity|]. now exists q.
    + intros (_ & q' & [= <-] & H). exact H.
  - intros [= <-]. exists false. split; [reflexivity|].
    split; [discriminate | intros [H _]; discriminate].
Qed.

(** X8. Classification under a profile raises exactly when a
    recommendation preference is set and the value under its suffixed key
    is present but is not a number; the exception is then [TypeError].
    With both preferences unset, or numeric or absent values, it returns
    for every record and mode. *)
Theorem analysis_raises_exactly_on_text_values (profile : Profile)
  (product_data : Product) (strict_mode : bool) :
  let prefs := Py.field (dietary_preferences profile) [] in
  let values := Py.field (nutriments product_data) [] in
  let text_under pref key :=
    Py.get_default prefs pref false = true
    /\ number_of (Py.get_default values key (PyInt 0)) = None in
  (analyze_product_safety (Some profile) product_data strict_mode
   = Raise TypeError
   <-> text_under "low_sugar" "sugars_100g" \/ text_under "low_salt" "salt_100g")
  /\ (forall e,
        analyze_product_safety (Some profile) product_data strict_mode
        = Raise e -> e = TypeError)
  /\ (~ (text_under "low_sugar" "sugars_100g"
         \/ text_under "low_salt" "salt_100g") ->
      exists v,
        analyze_product_safety (Some profile) product_data strict_mode = Ok v).
Proof.
  intros prefs values text_under. subst text_under. simpl.
  unfold analyze_product_safety, check_recommendation, gt_number.
  fold prefs. fold values.
  destruct (Py.get_default prefs "low_sugar" false);
    destruct (Py.get_default prefs "low_salt" false);
    destruct (number_of (Py.get_default values "sugars_100g" (PyInt 0)));
    destruct (number_of (Py.get_default values "salt_100g" (PyInt 0)));
    simpl;
    (split; [split; [try discriminate; auto
                    | intros [[? ?]|[? ?]]; try discriminate; auto]
            | split; [intros e; try discriminate; now intros [= <-]
                     | intros Hn; try (now eexists);
                       exfalso; apply Hn; auto]]).
Qed.

(** X9. A returned verdict recommends at most the low-sugar alternative
    followed by the low-salt alternative; each is present exactly when its
    preference is set and the value under the suffixed key ([sugars_100g],
    [salt_100g]) is a number above 5, respectively 1.5. *)
Theorem recommendations_characterised (profile : Profile)
  (product_data : Product) (strict_mode : bool) (v : Verdict) :
  analyze_product_safety (Some profile) product_data strict_mode = Ok v ->
  let prefs := Py.field (dietary_preferences profile) [] in
  let values := Py.field (nutriments product_data) [] in
  exists sugar salt : bool,
    recommendations v
    = ((if sugar then [LowSugarAlternative] else [])
       ++ (if salt then [LowSaltAlternative] else []))%list
    /\ (sugar = true <->
        Py.get_default prefs "low_sugar" false = true
        /\ exists q, number_of (Py.get_default values "sugars_100g" (PyInt 0))
                     = Some q /\ (5 < q)%Q)
    /\ (salt = true <->
        Py.get_default prefs "low_salt" false = true
        /\ exists q, number_of (Py.get_default values "salt_100g" (PyInt 0))
                     = Some q /\ (3 # 2 < q)%Q).
Proof.
  unfold analyze_product_safety.
  destruct (check_recommendation _ _ "low_sugar" _ _ _ _) as [st'|] eqn:E1;
    simpl; [|discriminate].
  intros E2.
  apply check_recommendation_ok in E1 as (sugar & -> & Hsugar).
  apply check_recommendation_ok in E2 as (salt & -> & Hsalt).
  exists sugar, salt. split; [|split; assumption].
  pose proof (safety_checks_recommend_nothing profile product_data strict_mode)
    as Hnil.
  destruct sugar, salt; simpl; now rewrite Hnil.
Qed.

(** ** The two presentations of a verdict *)

(** X10. The indicator of a search result and the closing advice of a
    barcode lookup agree on every verdict the analyzer returns: NOT SAFE
    goes with "not recommended", CAUTION with "review the warnings", and
    SAFE with "appears suitable" or with no analysis section at all.  An
    unsafe verdict is therefore never shown without its analysis. *)
Theorem indicator_agrees_with_advice (USER_PROFILE : option Profile)
  (product_data : Product) (strict_mode : bool) (v : Verdict) :
  analyze_product_safety USER_PROFILE product_data strict_mode = Ok v ->
  match safety_indicator v with
  | NOT_SAFE => dietary_analysis v = Some NotRecommended
  | CAUTION => dietary_analysis v = Some ReviewWarnings
  | SAFE =>
      dietary_analysis v = None \/ dietary_analysis v = Some AppearsSuitable
  end.
Proof.
  intros Hv.
  assert (Hj : justified v).
  { destruct USER_PROFILE as [profile|].
    - apply analyze_returns_checks in Hv as [Hs Hw].
      unfold justified. rewrite Hs, Hw. apply safety_checks_justified.
    - injection Hv as <-. intros H. discriminate H. }
  unfold safety_indicator, dietary_analysis, justified in *.
  destruct (is_safe v); simpl.
  - destruct (warnings v); simpl; [|reflexivity].
    destruct (recommendations v); simpl; auto.
  - destruct (warnings v); simpl; [now destruct Hj | reflexivity].
Qed.

(** ** The search filter against its bounds *)

Lemma Qltb_false_le (x y : Q) : Qltb x y = false <-> (y <= x)%Q.
Proof.
  unfold Qltb. rewrite negb_false_iff. apply Qle_bool_iff.
Qed.

Lemma nutrient_numeric (values : list (string * pyval)) (key1 key2 : string) :
  numeric_values values -> exact_integers values ->
  nutrient values key1 key2 = PyNone
  \/ exists q, number_of (nutrient values key1 key2) = Some q
               /\ float (nutrient values key1 key2) = Ok (Finite q).
Proof.
  intros H He.
  assert (Hget : forall key v, Py.get values key = Some v ->
                   v = PyNone
                   \/ exists q, number_of v = Some q
                                /\ float v = Ok (Finite q)).
  { intros key v Hv. destruct (H key v Hv) as [->|Hn]; [now left|]. right.
    destruct v as [|b|z|q|s]; try (now elim Hn).
    - eexists. split; reflexivity.
    - exists (inject_Z z). split; [reflexivity|]. unfold float.
      now rewrite (proj2 (Z.leb_le _ _) (He key z Hv)).
    - exists q. split; reflexivity. }
  unfold nutrient, Py.get_default.
  destruct (Py.get values key1) as [v|] eqn:E1; [exact (Hget _ _ E1)|].
  destruct (Py.get values key2) as [v|] eqn:E2; [exact (Hget _ _ E2)|].
  now left.
Qed.

(** One maximum of the loop over [limits]. *)
Lemma check_limits_step (values : list (string * pyval)) (bound : option Q)
  (key1 key2 name : string)
  (rest : list (option Q * string * string * string)) :
  numeric_values values -> exact_integers values ->
  (at_most bound (nutrient values key1 key2)
   /\ check_limits values ((bound, key1, key2, name) :: rest)
      = check_limits values rest)
  \/ (~ at_most bound (nutrient values key1 key2)
      /\ exists why,
           check_limits values ((bound, key1, key2, name) :: rest)
           = Ok (Some why)).
Proof.
  intros H He. unfold at_most. cbn [check_limits].
  destruct bound as [l|]; [|now left].
  destruct (nutrient_numeric values key1 key2 H He) as [->|(q & Hq & Hf)];
    [now left|].
  rewrite Hq.
  destruct (nutrient values key1 key2) as [|b|z|q'|s];
    try discriminate Hq; rewrite Hf; cbn [bind double_gt];
    (destruct (Qltb l q) eqn:Hc;
     [right; split; [apply Qltb_lt in Hc; now apply Qlt_not_le | eauto]
     |left; split; [now apply Qltb_false_le | reflexivity]]).
Qed.

Lemma check_minimum_spec (values : list (string * pyval)) (bound : option Q)
  (key1 key2 : string) (why : pyval -> Q -> reason) :
  numeric_values values -> exact_integers values ->
  (at_least bound (nutrient values key1 key2)
   /\ check_minimum bound values key1 key2 why = Ok None)
  \/ (~ at_least bound (nutrient values key1 key2)
      /\ exists r, check_minimum bound values key1 key2 why = Ok (Some r)).
Proof.
  intros H He. unfold at_least, check_minimum.
  destruct bound as [l|]; [|now left].
  destruct (nutrient_numeric values key1 key2 H He) as [->|(q & Hq & Hf)];
    [now left|].
  rewrite Hq.
  destruct (nutrient values key1 key2) as [|b|z|q'|s];
    try discriminate Hq; rewrite Hf; cbn [bind double_lt];
    (destruct (Qltb q l) eqn:Hc;
     [right; split; [apply Qltb_lt in Hc; now apply Qlt_not_le | eauto]
     |left; split; [now apply Qltb_false_le | reflexivity]]).
Qed.

Lemma check_protein_spec (filters : Filters)
  (values : list (string * pyval)) :
  numeric_values values -> exact_integers values ->
  let protein := nutrient values "proteins_100g" "proteins" in
  (at_least (min_protein_limit filters) protein
   /\ at_most (max_protein_limit filters) protein
   /\ check_protein filters values = Ok None)
  \/ (~ (at_least (min_protein_limit filters) protein
         /\ at_most (max_protein_limit filters) protein)
      /\ exists r, check_protein filters values = Ok (Some r)).
Proof.
  intros H He protein. subst protein. unfold at_least, at_most, check_protein.
  destruct (nutrient_numeric values "proteins_100g" "proteins" H He)
    as [->|(q & Hq & Hf)].
  { left. repeat split; destruct (min_protein_limit filters);
      destruct (max_protein_limit filters); exact I. }
  rewrite Hq.
  destruct (nutrient values "proteins_100g" "proteins") as [|b|z|q'|s];
    try discriminate Hq; rewrite Hf; cbn [bind double_lt double_gt];
    (destruct (min_protein_limit filters) as [lo|];
     destruct (max_protein_limit filters) as [hi|];
     try (destruct (Qltb q lo) eqn:Hlo);
     try (destruct (Qltb hi q) eqn:Hhi);
     try apply Qltb_lt in Hlo; try apply Qltb_lt in Hhi;
     try apply Qltb_false_le in Hlo; try apply Qltb_false_le in Hhi;
     first
       [ left; repeat split; solve [auto]
       | right; split; [intros [H1 H2]; first
                          [ now apply Qlt_not_le in Hlo
                          | now apply Qlt_not_le in Hhi ]
                       | eauto ] ]).
Qed.

(** X11. On a record whose nutrient values are all numbers or absent, the
    integers among them at most [2^53] in magnitude (so that [float]
    neither rounds nor overflows), the search filter returns without
    raising, and it admits the record exactly when the nut filter does not
    reject it and every bound in force holds: value at most each maximum
    (explicit, or implied by a [low_*] shorthand) and at least each
    minimum.  A missing value satisfies every bound, and an admitted
    record carries no reason. *)
Theorem filter_admits_exactly_within_bounds (filters : Filters)
  (product : Product) :
  numeric_values (Py.field (nutriments product) []) ->
  exact_integers (Py.field (nutriments product) []) ->
  exists admitted why,
    meets_nutrient_filters filters product = Ok (admitted, why)
    /\ (admitted = true <->
        no_nuts filters && contains_nuts product = false
        /\ within_bounds filters (Py.field (nutriments product) []))
    /\ (admitted = true -> why = None).
Proof.
  intros H He. unfold meets_nutrient_filters, within_bounds.
  set (values := Py.field (nutriments product) []) in *.
  destruct (no_nuts filters && contains_nuts product).
  { exists false, (Some ContainsNuts). repeat split; try discriminate.
    intros [Hc _]. discriminate. }
  unfold limits, first_reason.
  assert (Hreject : forall (P : Prop) (r : reason),
             ~ P ->
             exists admitted why,
               @Ok (bool * option reason) (false, Some r) = Ok (admitted, why)
               /\ (admitted = true <-> false = false /\ P)
               /\ (admitted = true -> why = None)).
  { intros P r Hn. exists false, (Some r).
    repeat split; try discriminate. intros [_ HP]. contradiction. }
  destruct (check_limits_step values (calorie_limit filters)
              "energy-kcal_100g" "energy-kcal" "Calories"
              [ (fat_limit filters, "fat_100g", "fat", "Fat");
                (fiber_limit filters, "fiber_100g", "fiber", "Fiber");
                (sugar_limit filters, "sugars_100g", "sugars", "Sugar");
                (salt_limit filters, "salt_100g", "salt", "Salt") ] H He)
    as [[B1 ->]|[N1 [r ->]]]; [|apply Hreject; tauto].
  destruct (check_limits_step values (fat_limit filters)
              "fat_100g" "fat" "Fat"
              [ (fiber_limit filters, "fiber_100g", "fiber", "Fiber");
                (sugar_limit filters, "sugars_100g", "sugars", "Sugar");
                (salt_limit filters, "salt_100g", "salt", "Salt") ] H He)
    as [[B2 ->]|[N2 [r ->]]]; [|apply Hreject; tauto].
  destruct (check_limits_step values (fiber_limit filters)
              "fiber_100g" "fiber" "Fiber"
              [ (sugar_limit filters, "sugars_100g", "sugars", "Sugar");
                (salt_limit filters, "salt_100g", "salt", "Salt") ] H He)
    as [[B3 ->]|[N3 [r ->]]]; [|apply Hreject; tauto].
  destruct (check_limits_step values (sugar_limit filters)
              "sugars_100g" "sugars" "Sugar"
              [ (salt_limit filters, "salt_100g", "salt", "Salt") ] H He)
    as [[B4 ->]|[N4 [r ->]]]; [|apply Hreject; tauto].
  destruct (check_limits_step values (salt_limit filters)
              "salt_100g" "salt" "Salt" [] H He)
    as [[B5 ->]|[N5 [r ->]]]; [|apply Hreject; tauto].
  simpl.
  destruct (check_protein_spec filters values H He)
    as [(B6 & B7 & ->)|[N6 [r ->]]]; [|apply Hreject; tauto].
  simpl.
  destruct (check_minimum_spec values (min_calorie_limit filters)
              "energy-kcal_100g" "energy-kcal" CaloriesBelowMinimum H He)
    as [[B8 ->]|[N8 [r ->]]]; [|apply Hreject; tauto].
  simpl.
  destruct (check_minimum_spec values (min_fiber_limit filters)
              "fiber_100g" "fiber" FiberBelowMinimum H He)
    as [[B9 ->]|[N9 [r ->]]]; [|apply Hreject; tauto].
  simpl. exists true, None. repeat split; auto.
Qed.

(** Integers beyond [2^53] are where [float] shows: one beyond the
    largest double makes the filter raise [OverflowError], which the
    search answers with a failure, and [2^53 + 1] is rounded to [2^53]
    and so passes a maximum of [2^53]. *)
Remark integers_beyond_doubles :
  meets_nutrient_filters low_fat_filters oversized_fat_product
  = Raise OverflowError
  /\ search_food_product None low_fat_filters [oversized_fat_product]
     = Failure OverflowError
  /\ meets_nutrient_filters
       (sample_filters false (Some (inject_Z (2 ^ 53))) false)
       rounded_fat_product
     = Ok (true, None).
Proof. repeat split; vm_compute; reflexivity. Qed.

(** ** The candidate loop *)

Lemma subsequence_nil {A : Type} (l : list A) : subsequence [] l.
Proof. induction l; constructor; auto. Qed.

(** What one run of the loop adds to its locals. *)
Lemma search_loop_adds (USER_PROFILE : option Profile) (filters : Filters)
  (products : list Product) :
  forall st st',
    search_loop USER_PROFILE filters products st = Ok st' ->
    (List.length (filtered_results st) < 10)%nat ->
    exists added,
      filtered_results st' = (filtered_results st ++ added)%list
      /\ (List.length (filtered_results st') <= 10)%nat
      /\ subsequence (map fst added) products
      /\ (total_checked st + List.length added <= total_checked st')%nat
      /\ (total_checked st' <= total_checked st + List.length products)%nat
      /\ forall product verdict, In (product, verdict) added ->
           analyze_product_safety USER_PROFILE product false = Ok verdict
           /\ (has_nutrient_filters filters = true ->
               meets_nutrient_filters filters product = Ok (true, None)).
Proof.
  induction products as [|product rest IH]; intros st st' Hrun Hlen.
  - injection Hrun as <-. exists []. rewrite app_nil_r.
    cbn [List.length map].
    split; [reflexivity|]. split; [lia|]. split; [constructor|].
    split; [lia|]. split; [lia|]. intros ? ? [].
  - cbn -[Nat.leb] in Hrun.
    destruct (if has_nutrient_filters filters then _ else _)
      as [[ok why]|e] eqn:Emeets; cbn -[Nat.leb] in Hrun; [|discriminate].
    destruct ok; cbn -[Nat.leb] in Hrun.
    + destruct (analyze_product_safety USER_PROFILE product false)
        as [verdict|e] eqn:Ev; cbn -[Nat.leb] in Hrun; [|discriminate].
      assert (Hthis : forall p v, In (p, v) [(product, verdict)] ->
                analyze_product_safety USER_PROFILE p false = Ok v
                /\ (has_nutrient_filters filters = true ->
                    meets_nutrient_filters filters p = Ok (true, None))).
      { intros p v [[= <- <-]|[]]. split; [exact Ev|]. intros Hf.
        rewrite Hf in Emeets. rewrite Emeets. f_equal. f_equal.
        unfold meets_nutrient_filters in Emeets.
        destruct (_ && _); [discriminate|].
        destruct (first_reason _) as [[r|]|]; simpl in Emeets;
          congruence. }
      destruct (_ || _) eqn:Estop.
      * injection Hrun as <-. exists [(product, verdict)].
        cbn [filtered_results total_checked map fst].
        rewrite length_app. cbn [List.length].
        split; [reflexivity|]. split; [lia|].
        split; [apply subseq_take, subsequence_nil|].
        split; [lia|]. split; [lia|]. exact Hthis.
      * apply orb_false_iff in Estop as [E10 _].
        apply Nat.leb_gt in E10.
        apply IH in Hrun; [|exact E10].
        destruct Hrun as (added & Hres & Hten & Hsub & Hcount & Hchk & Hall).
        cbn [filtered_results total_checked] in *.
        exists ((product, verdict) :: added).
        split; [rewrite Hres, <- app_assoc; reflexivity|].
        split; [exact Hten|].
        split; [now apply subseq_take|].
        cbn [List.length]. split; [lia|]. split; [lia|].
        intros p v [[= <- <-]|Hin]; [apply Hthis; now left | auto].
    + apply IH in Hrun; [|exact Hlen].
      destruct Hrun as (added & Hres & Hten & Hsub & Hcount & Hchk & Hall).
      cbn [filtered_results total_checked] in *. exists added.
      split; [exact Hres|]. split; [exact Hten|].
      split; [now apply subseq_skip|].
      cbn [List.length]. split; [lia|]. split; [lia|]. exact Hall.
Qed.

(** X12. A search that succeeds lists at most ten candidates.  They are
    candidates of the input, in input order; each was admitted by the
    filters (when any filter is set) and is paired with its lenient
    verdict; and the count of inspected candidates lies between the number
    listed and the number supplied. *)
Theorem search_lists_admitted_candidates (USER_PROFILE : option Profile)
  (filters : Filters) (products : list Product) (st : SearchState) :
  search_food_product USER_PROFILE filters products = Success st ->
  (List.length (filtered_results st) <= 10)%nat
  /\ subsequence (map fst (filtered_results st)) products
  /\ (List.length (filtered_results st) <= total_checked st)%nat
  /\ (total_checked st <= List.length products)%nat
  /\ forall product verdict, In (product, verdict) (filtered_results st) ->
       analyze_product_safety USER_PROFILE product false = Ok verdict
       /\ (has_nutrient_filters filters = true ->
           meets_nutrient_filters filters product = Ok (true, None)).
Proof.
  unfold search_food_product.
  destruct (search_loop _ _ _ _) as [st'|e] eqn:E; [|discriminate].
  intros [= ->].
  apply search_loop_adds in E; [|simpl; lia].
  destruct E as (added & Hres & Hten & Hsub & Hcount & Hchk & Hall).
  cbn [filtered_results total_checked app] in *. rewrite Hres.
  split; [rewrite <- Hres; exact Hten|]. split; [exact Hsub|].
  split; [lia|]. split; [lia|]. exact Hall.
Qed.

Lemma has_no_filters_admits (filters : Filters) (product : Product) :
  has_nutrient_filters filters = false ->
  (if has_nutrient_filters filters
   then meets_nutrient_filters filters product
   else Ok (true, None)) = Ok (true, None).
Proof. now intros ->. Qed.

(** The loop with no filter and no profile, from locals that hold [n]
    results after [n] candidates. *)
Lemma search_loop_unfiltered (filters : Filters) (products : list Product) :
  has_nutrient_filters filters = false ->
  forall st,
    total_checked st = List.length (filtered_results st) ->
    (List.length (filtered_results st) < 10)%nat ->
    search_loop None filters products st
    = Ok {| filtered_results :=
              (filtered_results st
               ++ map (fun p => (p, {| is_safe := true; warnings := [];
                                       recommendations := [] |}))
                      (firstn (10 - List.length (filtered_results st))
                              products))%list;
            total_checked :=
              total_checked st
              + Nat.min (10 - List.length (filtered_results st))
                        (List.length products) |}.
Proof.
  intros Hnone. induction products as [|product rest IH]; intros st Hn Hlen.
  - cbn [search_loop List.length]. rewrite firstn_nil.
    cbn [map]. rewrite app_nil_r, Nat.min_0_r, Nat.add_0_r.
    now destruct st.
  - cbn -[Nat.leb Nat.min Nat.sub firstn]. rewrite Hnone.
    cbn -[Nat.leb Nat.min Nat.sub firstn].
    rewrite length_app. cbn [List.length].
    destruct (10 - List.length (filtered_results st))%nat as [|k] eqn:Ek;
      [lia|].
    cbn [firstn map].
    destruct ((10 <=? List.length (filtered_results st) + 1)%nat
              || (50 <=? S (total_checked st))%nat) eqn:Estop.
    + assert (k = 0)%nat as ->.
      { apply orb_true_iff in Estop as [E|E]; apply Nat.leb_le in E; lia. }
      rewrite firstn_0. cbn [map]. do 2 f_equal. lia.
    + apply orb_false_iff in Estop as [E10 E50].
      apply Nat.leb_gt in E10.
      rewrite IH; cbn [filtered_results total_checked];
        rewrite ?length_app; cbn [List.length]; try lia.
      replace (10 - (List.length (filtered_results st) + 1))%nat with k by lia.
      rewrite <- app_assoc. cbn [app]. do 2 f_equal. lia.
Qed.

(** X13. With no filter set and no profile active, a search lists exactly
    the first ten candidates (all of them when there are fewer), each
    marked safe with no warning, and stops there: it has then inspected
    as many candidates as it lists. *)
Theorem unfiltered_search_lists_first_ten (filters : Filters)
  (products : list Product) :
  has_nutrient_filters filters = false ->
  search_food_product None filters products
  = Success
      {| filtered_results :=
           map (fun p => (p, {| is_safe := true; warnings := [];
                                recommendations := [] |}))
               (firstn 10 products);
         total_checked := Nat.min 10 (List.length products) |}.
Proof.
  intros Hnone. unfold search_food_product.
  rewrite (search_loop_unfiltered filters products Hnone); simpl; auto; lia.
Qed.

(** ** The label searches and the safe-only search *)

(** X14. A label search returns only products whose labels text contains
    the diet word (in any letter case).  When the first answer holds such
    products the result is exactly those, in the order of the answer, and
    the second answer is not used; when the first request returned but
    holds none (an empty or unlabelled answer, or another status code) the
    result is exactly the labelled products of the second answer, and
    empty when the second request fails; a failed first request gives the
    empty list whatever the second would have given. *)
Theorem label_search_returns_labelled (diet : string) (first second : fetch) :
  (forall product, In product (search_labelled_products diet first second) ->
                   labelled diet product = true)
  /\ (forall products,
        first = Fetched products ->
        filter (labelled diet) products <> [] ->
        search_labelled_products diet first second
        = filter (labelled diet) products)
  /\ (first = BadStatus
      \/ (exists products, first = Fetched products
                           /\ filter (labelled diet) products = []) ->
      search_labelled_products diet first second
      = match second with
        | Fetched products => filter (labelled diet) products
        | BadStatus | RequestFailed => []
        end)
  /\ (first = RequestFailed ->
      search_labelled_products diet first second = []).
Proof.
  assert (Hfilter : forall answer product,
             In product (verified diet answer) ->
             labelled diet product = true).
  { intros [products| |] product; simpl; try easy.
    intros H. now apply filter_In in H. }
  split; [|split; [|split]].
  - intros product. unfold search_labelled_products.
    destruct first as [products| |]; [| |intros []].
    + destruct (verified diet (Fetched products)) as [|p ps] eqn:E.
      * apply Hfilter.
      * rewrite <- E. apply Hfilter.
    + cbn [verified]. apply Hfilter.
  - intros products -> Hne. unfold search_labelled_products.
    cbn [verified]. destruct (filter (labelled diet) products); congruence.
  - intros [->|(products & -> & Hnone)]; unfold search_labelled_products;
      cbn [verified]; [|rewrite Hnone]; now destruct second.
  - intros ->. reflexivity.
Qed.

Lemma subsequence_In {A : Type} (small big : list A) (x : A) :
  subsequence small big -> In x small -> In x big.
Proof.
  induction 1 as [|y small big _ IH|y small big _ IH]; simpl; auto.
  intros [->|H]; auto.
Qed.

Lemma firstn_In {A : Type} (n : nat) (l : list A) (x : A) :
  In x (firstn n l) -> In x l.
Proof.
  intros H. rewrite <- (firstn_skipn n l). apply in_or_app. now left.
Qed.

(** What one loop of the safe-only search adds to its locals. *)
Lemma safe_loop_adds (USER_PROFILE : option Profile) (cap : option nat)
  (products : list Product) :
  forall st st',
    safe_loop USER_PROFILE cap products st = Ok st' ->
    (List.length (safe_products st) < 10)%nat ->
    exists added,
      safe_products st' = (safe_products st ++ added)%list
      /\ (List.length (safe_products st') <= 10)%nat
      /\ subsequence added products
      /\ (safe_checked st + List.length added <= safe_checked st')%nat
      /\ (safe_checked st' <= safe_checked st + List.length products)%nat
      /\ (forall n, cap = Some n -> (safe_checked st <= n)%nat ->
                    (safe_checked st' <= n)%nat)
      /\ forall product, In product added ->
                         strictly_clean USER_PROFILE product.
Proof.
  induction products as [|product rest IH]; intros st st' Hrun Hlen.
  - injection Hrun as <-. exists []. rewrite app_nil_r.
    cbn [List.length].
    split; [reflexivity|]. split; [lia|]. split; [constructor|].
    split; [lia|]. split; [lia|]. split; [auto|]. intros ? [].
  - cbn -[Nat.leb] in Hrun.
    destruct (match cap with Some n => _ | None => false end) eqn:Ecap.
    { injection Hrun as <-. exists []. rewrite app_nil_r.
      cbn [List.length].
      split; [reflexivity|]. split; [lia|].
      split; [apply subsequence_nil|].
      split; [lia|]. split; [lia|]. split; [auto|]. intros ? []. }
    destruct (analyze_product_safety USER_PROFILE product true)
      as [verdict|e] eqn:Ev; cbn -[Nat.leb] in Hrun; [|discriminate].
    assert (Hcap : forall n, cap = Some n -> (safe_checked st < n)%nat).
    { intros n ->. now apply Nat.leb_gt in Ecap. }
    destruct (is_safe verdict && is_nil (warnings verdict)) eqn:Eclean.
    + assert (Hthis : strictly_clean USER_PROFILE product).
      { apply andb_true_iff in Eclean as [Hs Hw]. exists verdict.
        repeat split; auto. now destruct (warnings verdict). }
      destruct (10 <=? _)%nat eqn:E10.
      * injection Hrun as <-. exists [product].
        cbn [safe_products safe_checked].
        rewrite length_app. cbn [List.length].
        split; [reflexivity|]. split; [lia|].
        split; [apply subseq_take, subsequence_nil|].
        split; [lia|]. split; [lia|].
        split; [intros n Hn _; specialize (Hcap n Hn); lia|].
        intros p [<-|[]]. exact Hthis.
      * apply Nat.leb_gt in E10.
        apply IH in Hrun; [|exact E10].
        destruct Hrun
          as (added & Hres & Hten & Hsub & Hcount & Hchk & Hn & Hall).
        cbn [safe_products safe_checked] in *.
        exists (product :: added).
        split; [rewrite Hres, <- app_assoc; reflexivity|].
        split; [exact Hten|].
        split; [now apply subseq_take|].
        cbn [List.length]. split; [lia|]. split; [lia|].
        split; [intros n Hc _; apply (Hn n Hc);
                specialize (Hcap n Hc); lia|].
        intros p [<-|Hin]; auto.
    + apply IH in Hrun; [|exact Hlen].
      destruct Hrun
        as (added & Hres & Hten & Hsub & Hcount & Hchk & Hn & Hall).
      cbn [safe_products safe_checked] in *. exists added.
      split; [exact Hres|]. split; [exact Hten|].
      split; [now apply subseq_skip|].
      cbn [List.length]. split; [lia|]. split; [lia|].
      split; [intros n Hc _; apply (Hn n Hc);
              specialize (Hcap n Hc); lia|].
      exact Hall.
Qed.

(** The listing of the safe-only search, with where its products come
    from. *)
Lemma safe_search_listing (profile : Profile)
  (vegan_products vegetarian_products : list Product) (general : fetch)
  (st : SafeState) :
  search_safe_food_only (Some profile) vegan_products vegetarian_products
    general = Ok (Listing st) ->
  (List.length (safe_products st) <= 10)%nat
  /\ (List.length (safe_products st) <= safe_checked st)%nat
  /\ (safe_checked st <= 20)%nat
  /\ forall product, In product (safe_products st) ->
       strictly_clean (Some profile) product
       /\ (In product vegan_products \/ In product vegetarian_products
           \/ exists products, general = Fetched products
                               /\ In product products).
Proof.
  unfold search_safe_food_only.
  set (st0 := {| safe_products := []; safe_checked := 0 |}).
  assert (Hphase : forall products st1,
             safe_loop (Some profile) None (firstn 10 products) st0 = Ok st1 ->
             (List.length (safe_products st1) <= 10)%nat
             /\ (List.length (safe_products st1) <= safe_checked st1)%nat
             /\ (safe_checked st1 <= 10)%nat
             /\ forall p, In p (safe_products st1) ->
                  strictly_clean (Some profile) p /\ In p products).
  { intros products st1 H. apply safe_loop_adds in H; [|simpl; lia].
    destruct H as (added & Hres & Hten & Hsub & Hcount & Hchk & _ & Hall).
    unfold st0 in *. cbn [safe_products safe_checked app] in *. rewrite Hres.
    pose proof (firstn_le_length 10 products).
    split; [rewrite <- Hres; exact Hten|]. split; [lia|]. split; [lia|].
    intros p Hp. split; [auto|].
    eapply firstn_In, subsequence_In; eauto. }
  assert (Hfirst : forall st1,
             (if Py.get_default (Py.field (dietary_preferences profile) [])
                   "vegan" false
              then safe_loop (Some profile) None
                     (firstn 10 vegan_products) st0
              else if Py.get_default
                        (Py.field (dietary_preferences profile) [])
                        "vegetarian" false
              then safe_loop (Some profile) None
                     (firstn 10 vegetarian_products) st0
              else Ok st0) = Ok st1 ->
             (List.length (safe_products st1) <= 10)%nat
             /\ (List.length (safe_products st1) <= safe_checked st1)%nat
             /\ (safe_checked st1 <= 10)%nat
             /\ forall p, In p (safe_products st1) ->
                  strictly_clean (Some profile) p
                  /\ (In p vegan_products \/ In p vegetarian_products)).
  { intros st1.
    destruct (Py.get_default _ "vegan" false);
      [|destruct (Py.get_default _ "vegetarian" false)].
    - intros H. apply Hphase in H as (H1 & H2 & H3 & H4).
      repeat split; auto; apply H4 in H; tauto.
    - intros H. apply Hphase in H as (H1 & H2 & H3 & H4).
      repeat split; auto; apply H4 in H; tauto.
    - intros [= <-]. simpl. repeat split; try lia; contradiction. }
  destruct (if Py.get_default _ "vegan" false then _ else _)
    as [st1|e]; cbn [bind]; [|discriminate].
  destruct (Hfirst st1 eq_refl) as (H1 & H2 & H3 & H4).
  assert (Hkeep : (List.length (safe_products st1) <= 10)%nat
                  /\ (List.length (safe_products st1) <= safe_checked st1)%nat
                  /\ (safe_checked st1 <= 20)%nat
                  /\ forall product, In product (safe_products st1) ->
                       strictly_clean (Some profile) product
                       /\ (In product vegan_products
                           \/ In product vegetarian_products
                           \/ exists products, general = Fetched products
                                               /\ In product products)).
  { split; [exact H1|]. split; [exact H2|]. split; [lia|].
    intros p Hp. apply H4 in Hp. tauto. }
  destruct (_ <? 5)%nat eqn:E5; [|intros [= <-]; exact Hkeep].
  destruct general as [products| |]; [|intros [= <-]; exact Hkeep|discriminate].
  destruct (safe_loop _ _ _ _) as [st2|e] eqn:E2; cbn [bind]; [|discriminate].
  intros [= <-].
  apply Nat.ltb_lt in E5.
  apply safe_loop_adds in E2; [|lia].
  destruct E2 as (added & Hres & Hten & Hsub & Hcount & Hchk & Hn & Hall).
  pose proof (Hn 20%nat eq_refl ltac:(lia)) as H20.
  split; [exact Hten|]. split; [rewrite Hres, length_app; lia|].
  split; [exact H20|].
  intros p Hp. rewrite Hres in Hp. apply in_app_or in Hp as [Hp|Hp].
  - apply H4 in Hp. tauto.
  - split; [auto|]. right. right. exists products. split; [reflexivity|].
    eapply firstn_In, subsequence_In; eauto.
Qed.

(** X15. The safe-only search lists at most ten products after analysing
    at most twenty.  Every listed product is safe under strict analysis
    with no warning at all, and comes from one of the catalogue's
    answers. *)
Theorem safe_search_lists_only_clean (profile : Profile)
  (vegan_products vegetarian_products : list Product) (general : fetch)
  (st : SafeState) :
  search_safe_food_only (Some profile) vegan_products vegetarian_products
    general = Ok (Listing st) ->
  (List.length (safe_products st) <= 10)%nat
  /\ (List.length (safe_products st) <= safe_checked st)%nat
  /\ (safe_checked st <= 20)%nat
  /\ forall product, In product (safe_products st) ->
       strictly_clean (Some profile) product
       /\ (In product vegan_products \/ In product vegetarian_products
           \/ exists products, general = Fetched products
                               /\ In product products).
Proof. exact (safe_search_listing profile vegan_products vegetarian_products
                general st). Qed.

(** X16. Under a vegan (or vegetarian) preference every product that the
    safe-only search lists is established for the diet: it never lists a
    product that discloses an unknown status, contains a negative
    indicator without a label, or has too little ingredient information
    and no label. *)
Theorem safe_search_lists_established_diet (profile : Profile)
  (vegan_products vegetarian_products : list Product) (general : fetch)
  (st : SafeState) (diet_type : string) (indicators : list string) :
  known_diet diet_type indicators ->
  Py.get_default (Py.field (dietary_preferences profile) []) diet_type false
  = true ->
  search_safe_food_only (Some profile) vegan_products vegetarian_products
    general = Ok (Listing st) ->
  forall product, In product (safe_products st) ->
                  diet_established product diet_type indicators.
Proof.
  intros Hdiet Hpref Hrun product Hin.
  apply safe_search_listing in Hrun as (_ & _ & _ & Hall).
  destruct (Hall product Hin) as [(v & Hv & _ & Hw) _].
  eapply silent_establishes; eauto.
Qed.

(** ** Where the candidate loop stops *)

Lemma search_loop_stops (USER_PROFILE : option Profile) (filters : Filters)
  (products : list Product) :
  forall st st',
    search_loop USER_PROFILE filters products st = Ok st' ->
    (total_checked st' < total_checked st + List.length products)%nat ->
    ((10 <= List.length (filtered_results st'))%nat
     \/ (50 <= total_checked st')%nat)
    /\ exists before product verdict after earlier,
         products = (before ++ product :: after)%list
         /\ total_checked st' = (total_checked st + List.length before + 1)%nat
         /\ filtered_results st' = (earlier ++ [(product, verdict)])%list.
Proof.
  induction products as [|product rest IH]; intros st st' Hrun Hless.
  - injection Hrun as <-. cbn [List.length] in Hless. lia.
  - cbn -[Nat.leb] in Hrun.
    destruct (if has_nutrient_filters filters then _ else _)
      as [[ok why]|e]; cbn -[Nat.leb] in Hrun; [|discriminate].
    assert (Hnext : forall st1,
               total_checked st1 = S (total_checked st) ->
               search_loop USER_PROFILE filters rest st1 = Ok st' ->
               ((10 <= List.length (filtered_results st'))%nat
                \/ (50 <= total_checked st')%nat)
               /\ exists before p verdict after earlier,
                    (product :: rest = before ++ p :: after)%list
                    /\ total_checked st'
                       = (total_checked st + List.length before + 1)%nat
                    /\ filtered_results st'
                       = (earlier ++ [(p, verdict)])%list).
    { intros st1 Hst1 H. cbn [List.length] in Hless.
      apply IH in H; [|lia].
      destruct H as (Hstop & before & p & v & after & earlier & -> & Hc & Hr).
      split; [exact Hstop|].
      exists (product :: before), p, v, after, earlier.
      cbn [List.length app]. repeat split; auto; lia. }
    destruct ok; cbn -[Nat.leb] in Hrun; [|now apply Hnext in Hrun].
    destruct (analyze_product_safety USER_PROFILE product false)
      as [verdict|e]; cbn -[Nat.leb] in Hrun; [|discriminate].
    destruct (_ || _) eqn:Estop; [|now apply Hnext in Hrun].
    injection Hrun as <-. cbn [filtered_results total_checked]. split.
    + apply orb_true_iff in Estop as [E|E]; apply Nat.leb_le in E; auto.
    + exists [], product, verdict, rest, (filtered_results st).
      cbn [List.length app]. repeat split; lia.
Qed.

(** X17. A search ends before the end of the candidates only right after
    listing one: the last candidate it inspected is then the last one
    listed, and at that point ten candidates are listed or at least fifty
    have been inspected.  A rejected candidate never ends the search. *)
Theorem search_stops_only_after_listing (USER_PROFILE : option Profile)
  (filters : Filters) (products : list Product) (st : SearchState) :
  search_food_product USER_PROFILE filters products = Success st ->
  (total_checked st < List.length products)%nat ->
  ((10 <= List.length (filtered_results st))%nat
   \/ (50 <= total_checked st)%nat)
  /\ exists before product verdict after earlier,
       products = (before ++ product :: after)%list
       /\ total_checked st = (List.length before + 1)%nat
       /\ filtered_results st = (earlier ++ [(product, verdict)])%list.
Proof.
  unfold search_food_product.
  destruct (search_loop _ _ _ _) as [st'|e] eqn:E; [|discriminate].
  intros [= ->] Hless.
  apply search_loop_stops in E; [|exact Hless]. exact E.
Qed.

(** ** Keyword searches *)

Lemma prefix_split (a b : string) :
  prefix a b = true <-> exists post, b = a ++ post.
Proof.
  revert b. induction a as [|c a IH]; intros b.
  - split; [exists b; reflexivity | now destruct b].
  - destruct b as [|d b]; simpl.
    + split; [discriminate | intros [post H]; discriminate].
    + destruct (ascii_dec c d) as [->|Hcd].
      * rewrite IH. split; intros [post H]; exists post; simpl; congruence.
      * split; [discriminate | intros [post H]; simpl in H; congruence].
Qed.

Lemma str_in_split (a b : string) :
  Py.str_in a b = true <-> exists pre post, b = pre ++ a ++ post.
Proof.
  split.
  - induction b as [|c b IH]; intros H; cbn [Py.str_in] in H.
    + rewrite orb_false_r in H. apply prefix_split in H as [post H].
      exists "", post. exact H.
    + apply orb_true_iff in H as [H|H].
      * apply prefix_split in H as [post H]. exists "", post. exact H.
      * destruct (IH H) as (pre & post & ->).
        exists (String c pre), post. reflexivity.
  - intros (pre & post & ->). induction pre as [|c pre IH].
    + assert (H : prefix a (a ++ post) = true)
        by (apply prefix_split; now exists post).
      cbn [append]. destruct (a ++ post); cbn [Py.str_in]; now rewrite H.
    + cbn [append Py.str_in]. rewrite IH. apply orb_true_r.
Qed.

Lemma string_app_assoc (a b c : string) : (a ++ b) ++ c = a ++ b ++ c.
Proof. induction a as [|x a IH]; simpl; congruence. Qed.

Lemma str_in_trans (a b c : string) :
  Py.str_in a b = true -> Py.str_in b c = true -> Py.str_in a c = true.
Proof.
  intros Hab Hbc.
  apply str_in_split in Hab as (p1 & q1 & ->).
  apply str_in_split in Hbc as (p2 & q2 & ->).
  apply str_in_split. exists (p2 ++ p1), (q1 ++ q2).
  now rewrite !string_app_assoc.
Qed.

Lemma nut_keywords_collapse (s : string) :
  Py.any_in nuts_keywords s = Py.any_in core_nut_words s.
Proof.
  apply eq_true_iff_eq. unfold Py.any_in. rewrite !existsb_exists. split.
  - intros (k & Hin & Hk).
    assert (Hcase : In k core_nut_words \/ Py.str_in "nut" k = true).
    { unfold nuts_keywords in Hin. simpl in Hin.
      repeat (destruct Hin as [<-|Hin];
              [first [left; simpl; tauto | right; reflexivity]|]).
      destruct Hin. }
    destruct Hcase as [Hc|Hnut]; [now exists k|].
    exists "nut". split; [now left | eapply str_in_trans; eauto].
  - intros (k & Hin & Hk). exists k. split; [|exact Hk].
    unfold core_nut_words in Hin. simpl in Hin. unfold nuts_keywords.
    repeat (destruct Hin as [<-|Hin]; [simpl; tauto|]). destruct Hin.
Qed.

(** X18. The eighteen nut keywords decide exactly what six of them do:
    a text field counts as naming nuts when, lower-cased, it contains
    "nut", "almond", "cashew", "pistachio", "pecan" or "macadamia".  Any
    text containing the letters "nut" therefore counts, whatever word they
    belong to.  This holds of the ingredients text, of every additional
    text field and tag, and of the keyword test on the nutrient mapping. *)
Theorem nut_keywords_are_six_words (product : Product) :
  has_nut_ingredient product
  = Py.any_in core_nut_words (ingredients_lower product)
  /\ (forall f, field_has_nut f
               = match f with
                 | TextField s => Py.any_in core_nut_words s
                 | ListField l =>
                     existsb (fun item =>
                                Py.any_in core_nut_words (Py.lower item)) l
                 end)
  /\ (Py.any_in core_nut_words (nutriments_str product) = false ->
      has_nut_in_nutriments product = false)
  /\ (Py.str_in "nut" (ingredients_lower product) = true ->
      contains_nuts product = true).
Proof.
  split; [|split; [|split]].
  - unfold has_nut_ingredient, ingredients_lower.
    apply nut_keywords_collapse.
  - intros [s|l]; cbn [field_has_nut]; [apply nut_keywords_collapse|].
    induction l as [|x l IH]; cbn [existsb]; [reflexivity|].
    now rewrite nut_keywords_collapse, IH.
  - intros H. unfold has_nut_in_nutriments, nut_in_nutriments_str.
    now rewrite nut_keywords_collapse, H.
  - intros H. unfold contains_nuts, has_nut_ingredient.
    fold (ingredients_lower product).
    replace (Py.any_in nuts_keywords (ingredients_lower product)) with true;
      [now rewrite orb_true_r|].
    symmetry. rewrite nut_keywords_collapse.
    unfold core_nut_words, Py.any_in. cbn [existsb]. now rewrite H.
Qed.

(** ** The key a profile limit reads *)

Lemma replace_suffix (base : string) :
  Py.str_in "_" base = false ->
  Py.replace "_100g" "" (base ++ "_100g") = base.
Proof.
  unfold Py.replace. induction base as [|c base IH]; intros H.
  - reflexivity.
  - assert (Hne : c <> "_"%char).
    { intros ->.
      assert (Ht : Py.str_in "_" (String "_" base) = true)
        by (apply str_in_split; now exists "", base).
      congruence. }
    assert (Hrest : Py.str_in "_" base = false).
    { destruct (Py.str_in "_" base) eqn:E; [|reflexivity].
      apply str_in_split in E as (pre & post & ->).
      assert (Ht : Py.str_in "_" (String c (pre ++ "_" ++ post)) = true)
        by (apply str_in_split; now exists (String c pre), post).
      congruence. }
    cbn [append Py.replace_from].
    destruct (prefix "_100g" (String c (base ++ "_100g"))) eqn:E.
    + apply prefix_split in E as [post E]. simpl in E. congruence.
    + now rewrite IH.
Qed.

(** X19. A profile limit keyed by a suffixed name ([sugars_100g]) reads the
    value under that key and, when the record has no such key, the value
    under the name without its suffix ([sugars]); when neither is present
    it reads 0, which violates no positive limit.  (Stated for names
    without an underscore before the suffix.) *)
Theorem limit_reads_unsuffixed_fallback (values : list (string * pyval))
  (base : string) :
  Py.str_in "_" base = false ->
  limited_value values (base ++ "_100g")
  = match Py.get values (base ++ "_100g"), Py.get values base with
    | Some v, _ => v
    | None, Some v => v
    | None, None => PyInt 0
    end.
Proof.
  intros H. unfold limited_value, Py.get_default.
  rewrite (replace_suffix base H).
  destruct (Py.get values (base ++ "_100g")); [reflexivity|].
  destruct (Py.get values base); reflexivity.
Qed.

(** ** The percentages the pattern extracts *)

Lemma star_greedy_sound {R : Type} (p : ascii -> bool) (s : string)
  (k : string -> option R) :
  forall x, star_greedy p s k = Some x ->
            exists m s', s = m ++ s' /\ all_chars p m = true
                         /\ k s' = Some x.
Proof.
  induction s as [|c t IH]; intros x; cbn [star_greedy].
  - intros H. now exists "", "".
  - destruct (p c) eqn:Hc; [|intros H; now exists "", (String c t)].
    destruct (star_greedy p t k) as [r|] eqn:E.
    + intros [= <-]. destruct (IH r eq_refl) as (m & s' & -> & Hm & Hk).
      exists (String c m), s'. cbn [append all_chars]. rewrite Hc, Hm. auto.
    + intros H. now exists "", (String c t).
Qed.

Lemma star_lazy_passes {R : Type} (p : ascii -> bool) (s : string)
  (k : string -> option R) :
  forall x, star_lazy p s k = Some x -> exists s', k s' = Some x.
Proof.
  induction s as [|c t IH]; intros x; cbn [star_lazy];
    destruct (k _) as [r|] eqn:E; try (intros [= <-]; eauto; fail);
    try discriminate.
  destruct (p c); [apply IH | discriminate].
Qed.

(** A pattern with no group calls its continuation with the captured text
    it was given. *)
Lemma rmatch_passes {R : Type} (r : regex) :
  group_free r = true ->
  forall s cap (k : string -> option string -> option R) x,
    rmatch r s cap k = Some x -> exists s', k s' cap = Some x.
Proof.
  induction r as [l|p|p|p|r1 IH1|r1 IH1 r2 IH2|r1 IH1 r2 IH2|r1 IH1];
    cbn [group_free rmatch]; intros Hfree s cap k x.
  - destruct (prefix l s); [eauto | discriminate].
  - intros H. apply star_greedy_sound in H as (m & s' & _ & _ & H). eauto.
  - intros H. apply star_lazy_passes in H. exact H.
  - destruct s as [|c t]; [discriminate|]. destruct (p c); [|discriminate].
    intros H. apply star_greedy_sound in H as (m & s' & _ & _ & H). eauto.
  - destruct (rmatch r1 s cap k) as [y|] eqn:E.
    + intros [= <-]. eapply IH1; eauto.
    + eauto.
  - apply andb_true_iff in Hfree as [H1 H2].
    destruct (rmatch r1 s cap k) as [y|] eqn:E.
    + intros [= <-]. eapply IH1; eauto.
    + intros H. eapply IH2; eauto.
  - apply andb_true_iff in Hfree as [H1 H2]. intros H.
    apply (IH1 H1) in H as [s1 H]. apply (IH2 H2) in H. exact H.
  - discriminate.
Qed.

(** The group of the pattern matches a decimal text. *)
Lemma decimal_group_sound {R : Type} (s : string) (cap : option string)
  (k : string -> option string -> option R) (x : R) :
  rmatch (Seq (PlusG is_digit) (Opt (Seq (Lit ".") (PlusG is_digit))))
         s cap k = Some x ->
  exists m s', s = m ++ s' /\ decimal_text m /\ k s' cap = Some x.
Proof.
  cbn [rmatch]. destruct s as [|c t]; [discriminate|].
  destruct (is_digit c) eqn:Hc; [|discriminate].
  intros H. apply star_greedy_sound in H as (m1 & s1 & -> & Hd1 & H).
  destruct (if prefix "." s1 then _ else None) as [y|] eqn:E.
  - injection H as ->. destruct (prefix "." s1) eqn:Hp; [|discriminate].
    apply prefix_split in Hp as [post ->]. cbn [append String.length Py.drop] in E.
    destruct post as [|c2 t2]; [discriminate|].
    destruct (is_digit c2) eqn:Hc2; [|discriminate].
    apply star_greedy_sound in E as (m2 & s2 & -> & Hd2 & E).
    exists (String c m1 ++ String "." (String c2 m2)), s2.
    split; [|split; [|exact E]].
    + cbn [append]. now rewrite !string_app_assoc.
    + exists (String c m1), (String "." (String c2 m2)).
      split; [reflexivity|]. split; [discriminate|].
      split; [cbn [all_chars]; now rewrite Hc, Hd1|].
      right. exists (String c2 m2).
      split; [reflexivity|]. split; [discriminate|].
      cbn [all_chars]. now rewrite Hc2, Hd2.
  - exists (String c m1), s1. split; [reflexivity|]. split; [|exact H].
    exists (String c m1), "".
    split; [clear; cbn [append]; f_equal; induction m1; simpl; congruence|].
    split; [discriminate|].
    split; [cbn [all_chars]; now rewrite Hc, Hd1 | now left].
Qed.

Lemma string_app_length (a b : string) :
  String.length (a ++ b) = (String.length a + String.length b)%nat.
Proof. induction a as [|c a IH]; simpl; congruence. Qed.

Lemma substring_prefix (m s' : string) :
  substring 0 (String.length (m ++ s') - String.length s') (m ++ s') = m.
Proof.
  rewrite string_app_length, Nat.add_sub.
  induction m as [|c m IH]; simpl; [now destruct s' | congruence].
Qed.

(** A match of the percentage pattern captures a decimal text. *)
Lemma match_here_decimal (s rest g : string) :
  match_here nuts_percentage_pattern s = Some (rest, g) -> decimal_text g.
Proof.
  unfold match_here, nuts_percentage_pattern. intros H.
  cbn [rmatch] in H.
  apply star_greedy_sound in H as (m0 & s0 & _ & _ & H).
  change (rmatch
            (alt_of [ "nuts"; "nut"; "walnut"; "almond"; "peanut"; "cashew";
                      "pistachio"; "hazelnut"; "pecan"; "macadamia" ])
            s0 None
            (fun s' cap' =>
               star_lazy not_brace_quote s'
                 (fun s1 =>
                    rmatch
                      (Seq (PlusG is_digit)
                           (Opt (Seq (Lit ".") (PlusG is_digit))))
                      s1 cap'
                      (fun s2 _ =>
                         star_greedy Py.is_space s2
                           (fun s3 =>
                              if prefix "%" s3
                              then Some (Py.drop 1 s3,
                                         Py.field
                                           (Some (substring 0
                                                    (String.length s1
                                                     - String.length s2) s1))
                                           "")
                              else None))))
          = Some (rest, g)) in H.
  apply rmatch_passes in H as [s1 H]; [|reflexivity].
  apply star_lazy_passes in H as [s2 H].
  apply decimal_group_sound in H as (m & s3 & -> & Hm & H).
  apply star_greedy_sound in H as (m4 & s4 & _ & _ & H).
  destruct (prefix "%" s4); [|discriminate].
  injection H as _ <-. cbn [Py.field]. now rewrite substring_prefix.
Qed.

Lemma findall_from_matches (r : regex) (fuel : nat) :
  forall s p, In p (findall_from fuel r s) ->
              exists s0 rest, match_here r s0 = Some (rest, p).
Proof.
  induction fuel as [|f IH]; intros s p; cbn [findall_from]; [easy|].
  destruct (match_here r s) as [[rest g]|] eqn:E.
  - destruct (_ <? _)%nat.
    + intros [<-|H]; [eauto | eapply IH; eauto].
    + intros [<-|H]; [eauto|].
      destruct s; [destruct H | eapply IH; eauto].
  - destruct s; [easy | apply IH].
Qed.

Lemma digit_no_sign (c : ascii) (t : string) :
  is_digit c = true -> split_sign (String c t) = (false, String c t).
Proof.
  destruct c as [[] [] [] [] [] [] [] []]; intros H;
    try reflexivity; vm_compute in H; discriminate H.
Qed.

(** A character of a decimal text is no whitespace, no separator and not
    the first letter of a spelled-out value. *)
Lemma decimal_char_plain (c : ascii) :
  is_digit c || Ascii.eqb c "." = true ->
  is_float_space c = false
  /\ Ascii.eqb c "_" = false
  /\ Ascii.eqb (Py.lower_char c) "i" = false
  /\ Ascii.eqb (Py.lower_char c) "n" = false.
Proof.
  destruct c as [[] [] [] [] [] [] [] []]; intros H;
    try (vm_compute in H; discriminate H); vm_compute; auto.
Qed.

Lemma float_rstrip_no_space (s : string) :
  all_chars (fun c => negb (is_float_space c)) s = true -> float_rstrip s = s.
Proof.
  induction s as [|c t IH]; cbn [all_chars float_rstrip]; [reflexivity|].
  intros H. apply andb_true_iff in H as [Hc Ht]. rewrite (IH Ht).
  apply negb_true_iff in Hc. destruct t; [now rewrite Hc | reflexivity].
Qed.

Lemma drop_underscores_none (s : string) :
  forall prev,
    all_chars (fun c => negb (Ascii.eqb c "_")) s = true ->
    Ascii.eqb prev "_" = false ->
    drop_underscores prev s = Some s.
Proof.
  induction s as [|c t IH]; intros prev H Hp; cbn [drop_underscores].
  - now rewrite Hp.
  - cbn [all_chars] in H. apply andb_true_iff in H as [Hc Ht].
    apply negb_true_iff in Hc. rewrite Hc, Hp. cbn [andb].
    now rewrite (IH c Ht Hc).
Qed.

Lemma all_chars_app (p : ascii -> bool) (a b : string) :
  all_chars p (a ++ b) = all_chars p a && all_chars p b.
Proof.
  induction a as [|c a IH]; cbn [append all_chars]; [reflexivity|].
  now rewrite IH, andb_assoc.
Qed.

Lemma all_chars_weaken (p q : ascii -> bool) (s : string) :
  (forall c, p c = true -> q c = true) ->
  all_chars p s = true -> all_chars q s = true.
Proof.
  intros Hpq. induction s as [|c t IH]; cbn [all_chars]; [reflexivity|].
  intros H. apply andb_true_iff in H as [Hc Ht].
  now rewrite (Hpq c Hc), (IH Ht).
Qed.

Lemma decimal_text_chars (g : string) :
  decimal_text g ->
  all_chars (fun c => is_digit c || Ascii.eqb c ".") g = true.
Proof.
  intros (ip & tail & -> & _ & Hip & Htail).
  assert (Hd : forall d, all_chars is_digit d = true ->
                 all_chars (fun c => is_digit c || Ascii.eqb c ".") d = true).
  { intros d. apply all_chars_weaken. intros c ->. reflexivity. }
  rewrite all_chars_app, (Hd ip Hip).
  destruct Htail as [->|(fp & -> & _ & Hfp)]; [reflexivity|].
  cbn [all_chars andb]. rewrite (Hd fp Hfp).
  now rewrite orb_true_r.
Qed.

Lemma span_digits_all (ip tail : string) :
  all_chars is_digit ip = true ->
  (tail = "" \/ exists c t, tail = String c t /\ is_digit c = false) ->
  span_digits (ip ++ tail) = (ip, tail).
Proof.
  intros Hip Htail. induction ip as [|c ip IH]; cbn [append].
  - destruct Htail as [->|(c & t & -> & Hc)]; [reflexivity|].
    cbn [span_digits]. now rewrite Hc.
  - cbn [all_chars] in Hip. apply andb_true_iff in Hip as [Hc Hrest].
    cbn [span_digits]. now rewrite Hc, (IH Hrest).
Qed.

Lemma digits_value_nonneg (s : string) :
  forall acc, (0 <= acc)%Z -> (0 <= digits_value acc s)%Z.
Proof.
  induction s as [|c t IH]; intros acc H; cbn [digits_value]; [exact H|].
  apply IH. unfold digit_value. lia.
Qed.

(** A decimal text denotes a number that is not negative. *)
Lemma parse_decimal_text (g : string) :
  decimal_text g -> exists q, parse_decimal g = Some q /\ (0 <= q)%Q.
Proof.
  intros (ip & tail & -> & Hne & Hip & Htail).
  destruct ip as [|c ip]; [congruence|].
  assert (Hall := Hip).
  cbn [all_chars] in Hip. apply andb_true_iff in Hip as [Hc Hrest].
  unfold parse_decimal.
  cbn [append]. rewrite (digit_no_sign c _ Hc).
  change (String c (ip ++ tail)) with (String c ip ++ tail).
  assert (Hq : forall fp : string,
             exists q,
               Some (Qred (inject_Z (signed false
                                       (digits_value 0 (String c ip ++ fp)))
                           * Qpower (10 # 1)
                               (0 - Z.of_nat (String.length fp))))
               = Some q /\ (0 <= q)%Q).
  { intros fp. eexists. split; [reflexivity|].
    rewrite Qred_correct. apply Qmult_le_0_compat.
    - cbn [signed]. rewrite <- (Zle_Qle 0).
      apply digits_value_nonneg. lia.
    - apply Qpower_0_le. discriminate. }
  destruct Htail as [->|(fp & -> & Hfne & Hfp)].
  - rewrite (span_digits_all (String c ip) "" Hall (or_introl eq_refl)).
    cbn [parse_exponent]. apply (Hq "").
  - rewrite (span_digits_all (String c ip) (String "." fp) Hall).
    + assert (Hspan : span_digits fp = (fp, "")).
      { clear - Hfp. induction fp as [|d fp IH]; [reflexivity|].
        cbn [all_chars] in Hfp. apply andb_true_iff in Hfp as [Hd Hfp].
        cbn [span_digits]. now rewrite Hd, (IH Hfp). }
      rewrite Hspan.
      cbn [parse_exponent]. apply (Hq fp).
    + right. exists "."%char, fp. split; reflexivity.
Qed.

Lemma round_half_even_nonneg (n d : Z) :
  (0 <= n)%Z -> (0 < d)%Z -> (0 <= round_half_even n d)%Z.
Proof.
  intros Hn Hd. unfold round_half_even.
  assert (0 <= n / d)%Z by (apply Z.div_pos; lia).
  destruct (2 * (n mod d) ?= d)%Z; [destruct (Z.even _)| |]; lia.
Qed.

Lemma scaled_nonneg (m t : Z) : (0 <= m)%Z -> (0 <= scaled m t)%Q.
Proof.
  intros Hm. unfold scaled. destruct (0 <=? t)%Z eqn:Ht.
  - rewrite <- (Zle_Qle 0). apply Z.mul_nonneg_nonneg; [exact Hm|].
    apply Z.pow_nonneg. lia.
  - rewrite Qred_correct. unfold Qle. cbn [Qnum Qden]. lia.
Qed.

(** Rounding keeps the sign: a number that is not negative rounds to a
    double that is not negative. *)
Lemma round_double_nonneg (x : Q) :
  (0 <= x)%Q -> nonnegative (round_double x).
Proof.
  unfold round_double. destruct x as [n d]. cbn [Qnum Qden].
  destruct n as [|n|n]; intros Hx.
  - apply Qle_refl.
  - unfold round_magnitude.
    set (t := (Z.max (floor_log2 (Z.pos n) (Z.pos d)) (-1022) - 52)%Z).
    destruct (0 <=? t)%Z eqn:Ht; cbn [andb].
    + destruct (2 ^ 1024 <=? _)%Z; [reflexivity|].
      apply scaled_nonneg, round_half_even_nonneg; [lia|].
      apply Z.mul_pos_pos; [lia|]. apply Z.pow_pos_nonneg; lia.
    + apply scaled_nonneg, round_half_even_nonneg; [|lia].
      apply Z.mul_nonneg_nonneg; [lia|]. apply Z.pow_nonneg. lia.
  - exfalso. unfold Qle in Hx. cbn [Qnum Qden] in Hx. lia.
Qed.

(** [float] of a decimal text is a number, and not a negative one. *)
Lemma parse_float_decimal (g : string) :
  decimal_text g -> exists x, parse_float g = Some x /\ nonnegative x.
Proof.
  intros Hg.
  assert (Hchars := decimal_text_chars g Hg).
  destruct (parse_decimal_text g Hg) as (q & Hq & Hpos).
  destruct Hg as (ip & tail & -> & Hne & Hip & _).
  destruct ip as [|c ip]; [congruence|].
  cbn [all_chars] in Hip. apply andb_true_iff in Hip as [Hc _].
  assert (Hplain : is_digit c || Ascii.eqb c "." = true) by now rewrite Hc.
  destruct (decimal_char_plain c Hplain) as (Hspace & _ & Hi & Hn).
  unfold parse_float.
  assert (Hl : float_lstrip (String c ip ++ tail) = String c ip ++ tail).
  { cbn [append float_lstrip]. now rewrite Hspace. }
  rewrite Hl, float_rstrip_no_space, drop_underscores_none;
    [| eapply all_chars_weaken; [|exact Hchars];
       intros a Ha; now destruct (decimal_char_plain a Ha) as (_ & -> & _)
     | reflexivity
     | eapply all_chars_weaken; [|exact Hchars];
       intros a Ha; now destruct (decimal_char_plain a Ha) as (-> & _) ].
  assert (Hspecial : parse_inf_or_nan (String c ip ++ tail) = None).
  { unfold parse_inf_or_nan. cbn [append]. rewrite (digit_no_sign c _ Hc).
    cbn [Py.lower String.eqb]. now rewrite Hi, Hn. }
  rewrite Hspecial, Hq. cbn [option_map].
  eexists. split; [reflexivity|]. now apply round_double_nonneg.
Qed.

(** X20. Every text that the percentage pattern extracts from a
    serialised nutrient mapping is a decimal numeral: [float] of it is a
    double that is not negative (an infinity when the numeral is beyond
    the largest double), never NaN and never an error.  The [ValueError]
    handler of the percentage loop is therefore never entered, and an
    extracted percentage that is not above 0 is one that [float] takes
    to 0. *)
Theorem extracted_percentages_are_numbers (s p : string) :
  In p (findall nuts_percentage_pattern s) ->
  exists x, parse_float p = Some x
            /\ nonnegative x
            /\ (percentage_positive p = false <->
                exists q, x = Finite q /\ (q == 0)%Q).
Proof.
  intros H. unfold findall in H.
  apply findall_from_matches in H as (s0 & rest & H).
  apply match_here_decimal, parse_float_decimal in H as (x & Hx & Hpos).
  exists x. split; [exact Hx|]. split; [exact Hpos|].
  unfold percentage_positive. rewrite Hx.
  destruct x as [q|negative|]; cbn [double_gt nonnegative] in *.
  - rewrite Qltb_false_le. split.
    + intros Hle. exists q. split; [reflexivity|]. now apply Qle_antisym.
    + intros (q' & [= <-] & Hq). rewrite Hq. apply Qle_refl.
  - subst negative. split; [discriminate|]. intros (q & Hq & _). discriminate.
  - destruct Hpos.
Qed.

End Engine.

(** * The properties at concrete records *)

(** The lenient classification of a record that exceeds a profile limit:
    the limit of 10 on [sugars_100g] is exceeded by 20, the warning is
    given, and the verdict stays safe. *)
Lemma lenient_limit_violation_is_safe :
  In ("sugars_100g", 10%Q)
     (Py.field (nutrient_limits sugar_limit_profile) [])
  /\ number_of (limited_value (Py.field (nutriments sugary_product) [])
                  "sugars_100g") = Some (inject_Z 20)
  /\ Qltb 10 (inject_Z 20) = true
  /\ analyze_product_safety repr_double (Some sugar_limit_profile)
       sugary_product false
     = Ok {| is_safe := true;
             warnings := [HighNutrient "sugars_100g" (PyInt 20) 10];
             recommendations := [] |}.
Proof. repeat split; try reflexivity. now left. Qed.

Lemma nutrient_limit_violation_witness :
  analyze_product_safety repr_double (Some sugar_limit_profile)
    sugary_product true
  = Ok {| is_safe := false;
          warnings := [HighNutrient "sugars_100g" (PyInt 20) 10];
          recommendations := [] |}
  /\ In (HighNutrient "sugars_100g" (PyInt 20) 10)
        [HighNutrient "sugars_100g" (PyInt 20) 10]
  /\ false = false.
Proof.
  split; [reflexivity|].
  destruct (nutrient_limit_violation repr_double
              sugar_limit_profile sugary_product true "sugars_100g" 10
              (inject_Z 20)
              {| is_safe := false;
                 warnings := [HighNutrient "sugars_100g" (PyInt 20) 10];
                 recommendations := [] |}) as (Hw & Hs & _).
  - simpl. left. reflexivity.
  - reflexivity.
  - reflexivity.
  - reflexivity.
  - split; [exact Hw | exact (Hs eq_refl)].
Defined.

Lemma status_unknown_beats_label_witness :
  labels_tags unknown_vegan_product = Some ["en:vegan"]
  /\ check_diet_status unknown_vegan_product false [] "vegan"
       non_vegan_indicators
     = (false, [StatusUnknownExplicit "vegan"]).
Proof.
  split; [reflexivity|].
  apply (status_unknown_beats_label unknown_vegan_product false [] "vegan"
           "Sugar, cocoa. vegan status unknown" non_vegan_indicators);
    reflexivity.
Defined.


Lemma unsafe_has_warning_witness :
  analyze_product_safety repr_double (Some nuts_profile)
    walnut_product false
  = Ok {| is_safe := false; warnings := [AllergyWarning "nuts"];
          recommendations := [] |}
  /\ [AllergyWarning "nuts"] <> [].
Proof.
  split; [reflexivity|].
  apply (unsafe_has_warning repr_double (Some nuts_profile)
           walnut_product false
           {| is_safe := false; warnings := [AllergyWarning "nuts"];
              recommendations := [] |}); reflexivity.
Defined.

(** ** The further properties at concrete records *)

Lemma allergy_match_is_unsafe_witness :
  analyze_product_safety repr_double (Some milk_profile)
    milk_powder_product false
  = Ok {| is_safe := false; warnings := [AllergyWarning "Milk"];
          recommendations := [] |}
  /\ false = false
  /\ In (AllergyWarning "Milk") [AllergyWarning "Milk"].
Proof.
  split; [reflexivity|].
  apply (allergy_match_is_unsafe repr_double milk_profile
           milk_powder_product false "Milk"
           {| is_safe := false; warnings := [AllergyWarning "Milk"];
              recommendations := [] |});
    try reflexivity.
  left. reflexivity.
Defined.

Lemma nut_allergy_is_unsafe_witness :
  false = false /\ In (AllergyWarning "nuts") [AllergyWarning "nuts"].
Proof.
  apply (nut_allergy_is_unsafe repr_double nuts_profile
           walnut_product true "nuts"
           {| is_safe := false; warnings := [AllergyWarning "nuts"];
              recommendations := [] |});
    try reflexivity; left; reflexivity.
Defined.

Lemma intolerance_is_advisory_unless_strict_witness :
  analyze_product_safety repr_double (Some additive_profile)
    seasoned_whey_product false
  = Ok {| is_safe := true;
          warnings := [IntoleranceWarning "Lactose"; AvoidedAdditive "E621"];
          recommendations := [] |}
  /\ In (IntoleranceWarning "Lactose")
        [IntoleranceWarning "Lactose"; AvoidedAdditive "E621"].
Proof.
  split; [reflexivity|].
  apply (intolerance_is_advisory_unless_strict repr_double
           additive_profile seasoned_whey_product false "Lactose"
           {| is_safe := true;
              warnings := [IntoleranceWarning "Lactose";
                           AvoidedAdditive "E621"];
              recommendations := [] |});
    try reflexivity.
  left. reflexivity.
Defined.

Lemma additive_is_advisory_unless_strict_witness :
  analyze_product_safety repr_double (Some additive_profile)
    seasoned_whey_product true
  = Ok {| is_safe := false;
          warnings := [IntoleranceWarning "Lactose"; AvoidedAdditive "E621"];
          recommendations := [] |}
  /\ In (AvoidedAdditive "E621")
        [IntoleranceWarning "Lactose"; AvoidedAdditive "E621"]
  /\ false = false.
Proof.
  split; [reflexivity|].
  destruct (additive_is_advisory_unless_strict repr_double
              additive_profile seasoned_whey_product true "E621"
              {| is_safe := false;
                 warnings := [IntoleranceWarning "Lactose";
                              AvoidedAdditive "E621"];
                 recommendations := [] |}) as (Hw & Hs & _);
    try reflexivity.
  - left. reflexivity.
  - split; [exact Hw | exact (Hs eq_refl)].
Defined.

Lemma negative_indicator_is_unsafe_witness :
  analyze_product_safety repr_double (Some vegan_profile)
    milk_bread_product false
  = Ok {| is_safe := false; warnings := [NotDiet "vegan" "milk"];
          recommendations := [] |}
  /\ false = false
  /\ exists j before after,
       In (NotDiet "vegan" j) [NotDiet "vegan" "milk"]
       /\ non_vegan_indicators = (before ++ j :: after)%list
       /\ Py.str_in j (ingredients_lower milk_bread_product) = true
       /\ forall k, In k before ->
                    Py.str_in k (ingredients_lower milk_bread_product) = false.
Proof.
  split; [reflexivity|].
  apply (negative_indicator_is_unsafe repr_double vegan_profile
           milk_bread_product false "vegan" "milk" non_vegan_indicators
           {| is_safe := false; warnings := [NotDiet "vegan" "milk"];
              recommendations := [] |});
    try reflexivity.
  - left. split; reflexivity.
  - left. reflexivity.
Defined.

Lemma silent_verdict_establishes_diet_witness :
  analyze_product_safety repr_double (Some vegan_profile)
    oat_drink_product true = Ok clean_verdict
  /\ diet_established oat_drink_product "vegan" non_vegan_indicators.
Proof.
  split; [reflexivity|].
  apply (silent_verdict_establishes_diet repr_double vegan_profile
           oat_drink_product true "vegan" non_vegan_indicators clean_verdict);
    try reflexivity.
  left. split; reflexivity.
Defined.

Lemma analysis_raises_exactly_on_text_values_witness :
  analyze_product_safety repr_double (Some low_sugar_profile)
    textual_sugar_product true = Raise TypeError
  /\ exists v,
       analyze_product_safety repr_double (Some vegan_profile)
         textual_sugar_product true = Ok v.
Proof.
  split.
  - apply (analysis_raises_exactly_on_text_values repr_double
             low_sugar_profile textual_sugar_product true).
    left. split; reflexivity.
  - apply (analysis_raises_exactly_on_text_values repr_double
             vegan_profile textual_sugar_product true).
    intros H. destruct H as [[H _]|[H _]]; vm_compute in H; discriminate H.
Defined.

Lemma recommendations_characterised_witness :
  exists sugar salt : bool,
    [LowSugarAlternative]
    = ((if sugar then [LowSugarAlternative] else [])
       ++ (if salt then [LowSaltAlternative] else []))%list
    /\ (sugar = true <->
        true = true
        /\ exists q, Some (inject_Z 20) = Some q /\ (5 < q)%Q)
    /\ (salt = true <->
        false = true
        /\ exists q, Some (inject_Z 0) = Some q /\ (3 # 2 < q)%Q).
Proof.
  apply (recommendations_characterised repr_double
           low_sugar_profile sugary_product false
           {| is_safe := true; warnings := [];
              recommendations := [LowSugarAlternative] |}).
  reflexivity.
Defined.

Lemma indicator_agrees_with_advice_witness :
  dietary_analysis
    {| is_safe := false; warnings := [AllergyWarning "nuts"];
       recommendations := [] |} = Some NotRecommended.
Proof.
  apply (indicator_agrees_with_advice repr_double
           (Some nuts_profile) walnut_product false
           {| is_safe := false; warnings := [AllergyWarning "nuts"];
              recommendations := [] |}).
  reflexivity.
Defined.

Lemma filter_admits_exactly_within_bounds_witness :
  exists admitted why,
    meets_nutrient_filters repr_double low_fat_filters lean_product
    = Ok (admitted, why)
    /\ (admitted = true <->
        no_nuts low_fat_filters
        && contains_nuts repr_double lean_product = false
        /\ within_bounds low_fat_filters
             (Py.field (nutriments lean_product) []))
    /\ (admitted = true -> why = None).
Proof.
  apply (filter_admits_exactly_within_bounds repr_double
           low_fat_filters lean_product).
  - intros key v H.
    change (Py.get [("fat_100g", PyInt 1)] key = Some v) in H.
    cbn [Py.get] in H.
    destruct (String.eqb "fat_100g" key); [|discriminate].
    injection H as <-. right. simpl. discriminate.
  - intros key z H.
    change (Py.get [("fat_100g", PyInt 1)] key = Some (PyInt z)) in H.
    cbn [Py.get] in H.
    destruct (String.eqb "fat_100g" key); [|discriminate].
    injection H as <-. vm_compute. discriminate.
Defined.

Lemma search_lists_admitted_candidates_witness :
  search_food_product repr_double None low_fat_filters
    [fatty_product; lean_product]
  = Success {| filtered_results := [(lean_product, clean_verdict)];
               total_checked := 2 |}
  /\ subsequence [lean_product] [fatty_product; lean_product].
Proof.
  split; [reflexivity|].
  apply (search_lists_admitted_candidates repr_double None
           low_fat_filters [fatty_product; lean_product]
           {| filtered_results := [(lean_product, clean_verdict)];
              total_checked := 2 |}).
  reflexivity.
Defined.

Lemma unfiltered_search_lists_first_ten_witness :
  search_food_product repr_double None no_filters
    (repeat fatty_product 12)
  = Success {| filtered_results :=
                 repeat (fatty_product, clean_verdict) 10;
               total_checked := 10 |}.
Proof.
  apply (unfiltered_search_lists_first_ten repr_double no_filters
           (repeat fatty_product 12)).
  reflexivity.
Defined.

Lemma label_search_returns_labelled_witness :
  search_vegan_products (Fetched [milk_bread_product])
    (Fetched [milk_bread_product; oat_drink_product])
  = [oat_drink_product].
Proof.
  destruct (label_search_returns_labelled "vegan"
              (Fetched [milk_bread_product])
              (Fetched [milk_bread_product; oat_drink_product]))
    as (_ & _ & Hfallback & _).
  apply Hfallback. right. exists [milk_bread_product].
  split; reflexivity.
Defined.

Lemma safe_search_lists_only_clean_witness :
  search_safe_food_only repr_double (Some vegan_profile)
    [oat_drink_product] [] (Fetched [milk_bread_product])
  = Ok (Listing {| safe_products := [oat_drink_product];
                   safe_checked := 2 |})
  /\ (1 <= 10)%nat /\ (1 <= 2)%nat /\ (2 <= 20)%nat.
Proof.
  split; [reflexivity|].
  destruct (safe_search_lists_only_clean repr_double vegan_profile
              [oat_drink_product] [] (Fetched [milk_bread_product])
              {| safe_products := [oat_drink_product]; safe_checked := 2 |}
              eq_refl) as (H1 & H2 & H3 & _).
  exact (conj H1 (conj H2 H3)).
Defined.

Lemma safe_search_lists_established_diet_witness :
  diet_established oat_drink_product "vegan" non_vegan_indicators.
Proof.
  apply (safe_search_lists_established_diet repr_double
           vegan_profile [oat_drink_product] [] (Fetched [milk_bread_product])
           {| safe_products := [oat_drink_product]; safe_checked := 2 |}
           "vegan" non_vegan_indicators);
    try reflexivity.
  - left. split; reflexivity.
  - left. reflexivity.
Defined.

Lemma search_stops_only_after_listing_witness :
  search_food_product repr_double None low_fat_filters
    (repeat lean_product 12)
  = Success {| filtered_results := repeat (lean_product, clean_verdict) 10;
               total_checked := 10 |}
  /\ ((10 <= 10)%nat \/ (50 <= 10)%nat).
Proof.
  split; [reflexivity|].
  destruct (search_stops_only_after_listing repr_double None
              low_fat_filters (repeat lean_product 12)
              {| filtered_results := repeat (lean_product, clean_verdict) 10;
                 total_checked := 10 |} eq_refl) as [Hstop _].
  - simpl. lia.
  - exact Hstop.
Defined.

Lemma nut_keywords_are_six_words_witness :
  Py.str_in "nut" (ingredients_lower coconut_product) = true
  /\ contains_nuts repr_double coconut_product = true.
Proof.
  split; [reflexivity|].
  apply (nut_keywords_are_six_words repr_double coconut_product).
  reflexivity.
Defined.

Lemma limit_reads_unsuffixed_fallback_witness :
  limited_value [("sugars", PyInt 20)] ("sugars" ++ "_100g") = PyInt 20.
Proof.
  apply (limit_reads_unsuffixed_fallback [("sugars", PyInt 20)] "sugars").
  reflexivity.
Defined.

Lemma extracted_percentages_are_numbers_witness :
  In "12.5" (findall nuts_percentage_pattern "{'label': mixed nuts 12.5 %}")
  /\ exists x, parse_float "12.5" = Some x
               /\ nonnegative x
               /\ (percentage_positive "12.5" = false <->
                   exists q, x = Finite q /\ (q == 0)%Q).
Proof.
  split; [left; reflexivity|].
  apply (extracted_percentages_are_numbers
           "{'label': mixed nuts 12.5 %}" "12.5").
  left. reflexivity.
Defined.
